(** * VSLR-model: the data-cleaning pipeline of [data_cleaning.py]

    A shallow embedding of the functions of [src/data_cleaning.py] and the
    properties its specification states about them.

    Modelling choices, all taken from the source:
    - Python [float] is IEEE 754 binary64: Rocq's primitive [float], whose
      operations are the hardware's, so [(10 + 20) / 2] evaluates as in Python.
    - Python [str] is [string]; comparison is lexicographic on character
      codes, as [sorted] on strings is.
    - Python [int] is [Z].
    - A Python [dict] is an association list in insertion order with distinct
      keys: [dict_set] overwrites in place or appends at the end.
    - A raised exception is the [Err] branch of [result]; statements are
      sequenced with [x <- c ;; k]. *)

From Stdlib Require Import ZArith List String Ascii Bool Lia.
From Stdlib Require Import Permutation Sorted.
From Stdlib Require Import Floats.PrimFloat Floats.SpecFloat Floats.FloatOps.
From Stdlib Require Import Floats.FloatAxioms.
Import ListNotations.

Local Open Scope string_scope.
Local Open Scope list_scope.

(** ** Exceptions and the error monad *)

Inductive exn : Set :=
| StopIteration
| IndexError
| KeyError
| ValueError
| OverflowError
| ZeroDivisionError.

Inductive result (A : Type) : Type :=
| Ok (a : A)
| Err (e : exn).

Arguments Ok {A} a.
Arguments Err {A} e.

Definition bind {A B : Type} (c : result A) (k : A -> result B) : result B :=
  match c with
  | Ok a => k a
  | Err e => Err e
  end.

Notation "x <- c ;; k" := (bind c (fun x => k))
  (at level 61, c at next level, right associativity).

Definition succeeds {A : Type} (c : result A) : Prop := exists a, c = Ok a.

Definition fails {A : Type} (c : result A) : Prop := exists e, c = Err e.

(** ** Python dictionaries keyed by strings *)

Section Dict.
Context {V : Type}.

Definition dict : Type := list (string * V).

Fixpoint dict_get (d : dict) (k : string) : option V :=
  match d with
  | [] => None
  | (k', v) :: d' => if String.eqb k k' then Some v else dict_get d' k
  end.

(** [d[k] = v]: an existing key keeps its position, a new one goes last. *)
Fixpoint dict_set (d : dict) (k : string) (v : V) : dict :=
  match d with
  | [] => [(k, v)]
  | (k', v') :: d' =>
      if String.eqb k k' then (k', v) :: d' else (k', v') :: dict_set d' k v
  end.

(** [for k in d] visits the keys in insertion order. *)
Definition dict_keys (d : dict) : list string := map fst d.

(** [d[k]] as an expression: [KeyError] on a missing key. *)
Definition getitem (d : dict) (k : string) : result V :=
  match dict_get d k with
  | Some v => Ok v
  | None => Err KeyError
  end.
End Dict.

Arguments dict V : clear implicits.

(** ** Data model *)

(** [Tuple[str, float]]: a time-label and a measurement. *)
Definition Observation : Type := string * float.

(** [Dict[str, List[Tuple[str, float]]]] *)
Definition SourceDataset : Type := dict (list Observation).

(** The dictionary [new_data] of [group_means]: year prefix to mean. *)
Definition AnnualMeans : Type := dict float.

(** ** [remove_dupes] *)

(** [year not in new_data] is [dict_get] finding nothing; otherwise [prev]
    is the value found. The literal [2] is an [int], which [float / int]
    converts to [2.0]. *)
Definition remove_dupes (year : string) (new_data : AnnualMeans) (mean : float)
  : AnnualMeans :=
  match dict_get new_data year with
  | None => dict_set new_data year mean
  | Some prev => dict_set new_data year ((prev + mean) / 2)%float
  end.

(** Successive calls of [remove_dupes] for one year, starting from [{}]. *)
Definition merge_all (year : string) (means : list float) : AnnualMeans :=
  fold_left (remove_dupes year) means [].

(** ** [group_means] *)

(** [pair[0][0:4]]: the first four characters of the time-label, or the
    whole label when it is shorter. *)
Definition year_of (pair : Observation) : string := substring 0 4 (fst pair).

(** A Python [set] of strings, as the list of its distinct elements. *)
Fixpoint set_add (x : string) (s : list string) : list string :=
  match s with
  | [] => [x]
  | y :: s' => if String.eqb x y then s else y :: set_add x s'
  end.

(** [{f(x) for x in l}] after mapping [f]. *)
Definition set_of (l : list string) : list string :=
  fold_left (fun s x => set_add x s) l [].

Fixpoint insert (x : string) (l : list string) : list string :=
  match l with
  | [] => [x]
  | y :: l' => if String.leb x y then x :: l else y :: insert x l'
  end.


(** [sorted(s)]: ascending in the order of [str]. *)
Definition sorted (l : list string) : list string := fold_right insert [] l.

(** [years = sorted({pair[0][0:4] for pair in data[satellite]})] *)
Definition years_of (obs : list Observation) : list string :=
  sorted (set_of (map year_of obs)).

(** [int] to [float]: the nearest binary64 value, ties to even. (Python
    raises [OverflowError] beyond the largest float; the integers converted
    here are counts of list elements, years and lengths of years.) *)
Definition float_of_int (n : Z) : float :=
  SF2Prim (binary_normalize prec emax n 0 false).

(** One step of the inner loop over [data[satellite]]: the state is
    [(annual_mean, count)]. [annual_mean] starts as the [int] 0, and
    [0 + x] on a float [x] is the float sum [0.0 + x]. *)
Definition accumulate (year : string) (acc : float * Z) (pair : Observation)
  : float * Z :=
  if String.eqb year (year_of pair)
  then ((fst acc + snd pair)%float, (snd acc + 1)%Z)
  else acc.

Definition sum_count (obs : list Observation) (year : string) : float * Z :=
  fold_left (accumulate year) obs (0%float, 0%Z).

(** [annual_mean /= count] raises [ZeroDivisionError] when [count] is 0. *)
Definition divide (annual_mean : float) (count : Z) : result float :=
  if (count =? 0)%Z then Err ZeroDivisionError
  else Ok (annual_mean / float_of_int count)%float.

Definition annual_mean (obs : list Observation) (year : string) : result float :=
  divide (fst (sum_count obs year)) (snd (sum_count obs year)).

(** [for year in years: ...; remove_dupes(year, new_data, annual_mean)] *)
Fixpoint years_loop (obs : list Observation) (years : list string)
    (new_data : AnnualMeans) : result AnnualMeans :=
  match years with
  | [] => Ok new_data
  | year :: years' =>
      mean <- annual_mean obs year ;;
      years_loop obs years' (remove_dupes year new_data mean)
  end.

(** [for satellite in data: ...] over the keys still to visit. *)
Fixpoint satellites_loop (data : SourceDataset) (keys : list string)
    (new_data : AnnualMeans) : result AnnualMeans :=
  match keys with
  | [] => Ok new_data
  | satellite :: keys' =>
      obs <- getitem data satellite ;;
      new_data' <- years_loop obs (years_of obs) new_data ;;
      satellites_loop data keys' new_data'
  end.

Definition group_means (data : SourceDataset) : result AnnualMeans :=
  satellites_loop data (dict_keys data) [].

(** The arithmetic mean as the specification words it: the sum of the values
    divided by how many there are. *)
Definition arithmetic_mean (values : list float) : float :=
  (fold_left PrimFloat.add values 0 / float_of_int (Z.of_nat (List.length values)))%float.

(** The observations of [obs] whose label starts with [year]. *)
Definition in_year (year : string) (obs : list Observation) : list Observation :=
  filter (fun pair => String.eqb year (year_of pair)) obs.

(** ** [read_csv_data] *)

(** The file is the list of rows [csv.reader] yields, each a list of
    strings. *)
Definition Row : Type := list string.

Section Reader.

(** Python's builtin [float] on a string: the number the string denotes, or
    nothing where [float] raises [ValueError]. *)
Variable py_float : string -> option float.

(** [row[i]] for a non-negative literal [i]. *)
Definition column (row : Row) (i : nat) : result string :=
  match nth_error row i with
  | Some c => Ok c
  | None => Err IndexError
  end.

Definition float_of_string (s : string) : result float :=
  match py_float s with
  | Some v => Ok v
  | None => Err ValueError
  end.

(** [next(reader)], [n] times. *)
Fixpoint skip_rows (n : nat) (reader : list Row) : result (list Row) :=
  match n with
  | O => Ok reader
  | S n' =>
      match reader with
      | [] => Err StopIteration
      | _ :: reader' => skip_rows n' reader'
      end
  end.

(** The dictionary of [read_csv_data] has the four satellite keys, in this
    order, from its creation on. *)
Definition dataset4 (l1 l2 l3 l4 : list Observation) : SourceDataset :=
  [("topex_pos", l1); ("jason-1", l2); ("jason-2", l3); ("jason-3", l4)].

Definition data_sea_level_init : SourceDataset := dataset4 [] [] [] [].

(** [if row[i] != '': data_sea_level[name].append((row[0], float(row[i])))]:
    the list is looked up first, then the tuple is built left to right. *)
Definition read_column (row : Row) (i : nat) (name : string)
    (data_sea_level : SourceDataset) : result SourceDataset :=
  c <- column row i ;;
  if String.eqb c "" then Ok data_sea_level
  else
    l <- getitem data_sea_level name ;;
    label <- column row 0 ;;
    value <- float_of_string c ;;
    Ok (dict_set data_sea_level name (l ++ [(label, value)])).

Definition read_row (data_sea_level : SourceDataset) (row : Row)
  : result SourceDataset :=
  d1 <- read_column row 1 "topex_pos" data_sea_level ;;
  d2 <- read_column row 2 "jason-1" d1 ;;
  d3 <- read_column row 3 "jason-2" d2 ;;
  read_column row 4 "jason-3" d3.

(** [for row in reader: ...] *)
Fixpoint read_rows (reader : list Row) (data_sea_level : SourceDataset)
  : result SourceDataset :=
  match reader with
  | [] => Ok data_sea_level
  | row :: reader' =>
      d <- read_row data_sea_level row ;;
      read_rows reader' d
  end.

Definition read_csv_data (file : list Row) : result SourceDataset :=
  reader <- skip_rows 6 file ;;
  read_rows reader data_sea_level_init.

(** A value column of a data row is acceptable when it is empty or
    numeric. *)
Definition cell_ok (row : Row) (i : nat) : Prop :=
  forall c, nth_error row i = Some c -> c <> "" -> py_float c <> None.

(** A well-formed data row: at least 5 columns, value columns 1 to 4 empty
    or numeric. *)
Definition row_ok (row : Row) : Prop :=
  5 <= List.length row
  /\ cell_ok row 1 /\ cell_ok row 2 /\ cell_ok row 3 /\ cell_ok row 4.

(** A non-empty value that [float] rejects. *)
Definition cell_bad (row : Row) (i : nat) : Prop :=
  exists c, nth_error row i = Some c /\ c <> "" /\ py_float c = None.

(** A malformed data row: fewer than 5 columns, or a non-empty value in
    columns 1 to 4 that is not a number. *)
Definition row_bad (row : Row) : Prop :=
  List.length row < 5
  \/ cell_bad row 1 \/ cell_bad row 2 \/ cell_bad row 3 \/ cell_bad row 4.

(** What the specification says one row contributes to the source of value
    column [i]: nothing for an empty value, else the parsed value paired
    with the row's time-label. *)
Definition row_observation (i : nat) (row : Row) : list Observation :=
  match nth_error row i, nth_error row 0 with
  | Some c, Some label =>
      if String.eqb c "" then []
      else match py_float c with
           | Some value => [(label, value)]
           | None => []
           end
  | _, _ => []
  end.

Definition column_observations (i : nat) (rows : list Row) : list Observation :=
  flat_map (row_observation i) rows.

End Reader.

(** [float] on the cells of the examples below; the examples use no other
    non-empty cell than these and ["n/a"], which [float] rejects. *)
Definition example_float (s : string) : option float :=
  if String.eqb s "10.0" then Some 10%float
  else if String.eqb s "20.0" then Some 20%float
  else if String.eqb s "-3.5" then Some (-3.5)%float
  else None.

(** ** [predict_data] and [means_to_csv] *)

Section Writer.

(** The type of the predicted values the external routine returns. *)
Context {V : Type}.

(** A field handed to [csv.writer.writerow]. *)
Inductive field : Type :=
| Text (s : string)
| Int (n : Z)
| Num (x : float)
| Val (v : V).

(** The contents of an output file: the rows written so far. *)
Definition csv_file : Type := list (list field).

(** [l[i]] on a list: a negative index counts from the end. *)
Definition list_getitem {A : Type} (l : list A) (i : Z) : result A :=
  let n := Z.of_nat (List.length l) in
  let j := if (i <? 0)%Z then (i + n)%Z else i in
  if ((0 <=? j) && (j <? n))%Z
  then match nth_error l (Z.to_nat j) with
       | Some a => Ok a
       | None => Err IndexError
       end
  else Err IndexError.

(** [range(lo, hi)] *)
Definition range (lo hi : Z) : list Z :=
  map (fun k => (lo + Z.of_nat k)%Z) (seq 0 (Z.to_nat (hi - lo))).

(** The loop of [predict_data]: the state is the index [i] and the file;
    when [values[1][i]] raises, the rows written before stay written. *)
Fixpoint predict_loop (years : list Z) (i : Z) (predicted : list V)
    (file : csv_file) : csv_file * result unit :=
  match years with
  | [] => (file, Ok tt)
  | year :: years' =>
      match list_getitem predicted i with
      | Ok v => predict_loop years' (i + 1)%Z predicted (file ++ [[Int year; Val v]])
      | Err e => (file, Err e)
      end
  end.

(** [values] is what [process_file()] returned; [file] is
    [data_predictions.csv] as opened for appending. *)
Definition predict_data (values : Z * list V) (file : csv_file)
  : csv_file * result unit :=
  predict_loop (range 2021 (fst values)) 0 (snd values) file.

Definition means_to_csv (data : AnnualMeans) (values : Z * list V)
  : csv_file * result unit :=
  predict_data values
    ([Text "year"; Text "mean_sea_level"]
       :: map (fun entry => [Text (fst entry); Num (snd entry)]) data).

(** The forecast rows as the specification lists them: the k-th year from
    2021, below [end_year_exclusive], paired with the k-th predicted value. *)
Definition forecast_rows (end_year_exclusive : Z) (predicted : list V)
  : csv_file :=
  map (fun yv => [Int (fst yv); Val (snd yv)])
    (combine (range 2021 end_year_exclusive) predicted).

End Writer.

Arguments field V : clear implicits.
Arguments csv_file V : clear implicits.

(** ** [decimal_year_to_datetime] *)

(** The parts of Python's [datetime] module the function uses, after its
    documentation and [_pydatetime]: proleptic Gregorian dates of the years
    1 to 9999, durations counted in microseconds. *)
Module Datetime.

Local Open Scope Z_scope.

Definition MINYEAR : Z := 1.
Definition MAXYEAR : Z := 9999.
Definition MAXORDINAL : Z := 3652059.
Definition us_per_second : Z := 1000000.
Definition us_per_day : Z := 86400 * us_per_second.

Definition is_leap (year : Z) : bool :=
  (year mod 4 =? 0) && (negb (year mod 100 =? 0) || (year mod 400 =? 0)).

Definition days_in_month (year month : Z) : Z :=
  if month =? 2 then (if is_leap year then 29 else 28)
  else if (month =? 4) || (month =? 6) || (month =? 9) || (month =? 11) then 30
  else 31.

(** Days before January 1 of [year]. *)
Definition days_before_year (year : Z) : Z :=
  let y := year - 1 in
  y * 365 + y / 4 - y / 100 + y / 400.

(** Days of [year] before the first of [month]. *)
Definition days_before_month (year month : Z) : Z :=
  fold_left Z.add
    (map (days_in_month year) (map Z.of_nat (seq 1 (Z.to_nat (month - 1))))) 0.

Record date : Set := mkdate { year : Z; month : Z; day : Z }.

(** A [datetime]: a date and the time of day in microseconds. *)
Record datetime : Set := mkdatetime { date_of : date; time_of : Z }.

(** A [timedelta], in microseconds. *)
Definition timedelta : Set := Z.

(** [date.toordinal()]: January 1 of year 1 is day 1. *)
Definition toordinal (d : date) : Z :=
  days_before_year (year d) + days_before_month (year d) (month d) + day d.

(** The month and day of the [n]-th day (from 0) of [year], counting the
    months from [month] on. *)
Fixpoint month_day (year : Z) (fuel : nat) (month n : Z) : Z * Z :=
  match fuel with
  | O => (month, n + 1)
  | S fuel' =>
      if n <? days_in_month year month then (month, n + 1)
      else month_day year fuel' (month + 1) (n - days_in_month year month)
  end.

(** [date.fromordinal(n)], for [1 <= n <= MAXORDINAL]: the 400-, 100-,
    4- and 1-year cycles locate the year. *)
Definition fromordinal (n : Z) : date :=
  let n0 := n - 1 in
  let n400 := n0 / 146097 in
  let r400 := n0 mod 146097 in
  let n100 := r400 / 36524 in
  let r100 := r400 mod 36524 in
  let n4 := r100 / 1461 in
  let r4 := r100 mod 1461 in
  let n1 := r4 / 365 in
  let r1 := r4 mod 365 in
  let y := n400 * 400 + 1 + n100 * 100 + n4 * 4 + n1 in
  if (n1 =? 4) || (n100 =? 4) then mkdate (y - 1) 12 31
  else
    let md := month_day y 11 1 r1 in
    mkdate y (fst md) (snd md).

(** The checks of the [date] and [datetime] constructors: a year that does
    not fit a C [int] raises [OverflowError], any other field out of range
    [ValueError]. *)
Definition check_date_fields (y m d : Z) : result date :=
  if (y <? - 2 ^ 31) || (2 ^ 31 <=? y) then Err OverflowError
  else if (y <? MINYEAR) || (MAXYEAR <? y) then Err ValueError
  else if (m <? 1) || (12 <? m) then Err ValueError
  else if (d <? 1) || (days_in_month y m <? d) then Err ValueError
  else Ok (mkdate y m d).

(** [datetime(year, month, day)]: midnight of that day. *)
Definition datetime_new (y m d : Z) : result datetime :=
  dd <- check_date_fields y m d ;;
  Ok (mkdatetime dd 0).

(** [dt.replace(year=y)] *)
Definition datetime_replace_year (dt : datetime) (y : Z) : result datetime :=
  dd <- check_date_fields y (month (date_of dt)) (day (date_of dt)) ;;
  Ok (mkdatetime dd (time_of dt)).

(** [d.replace(day=n)] *)
Definition date_replace_day (d : date) (n : Z) : result date :=
  check_date_fields (year d) (month d) n.

(** Microseconds from the start of day 0. *)
Definition to_microseconds (dt : datetime) : Z :=
  toordinal (date_of dt) * us_per_day + time_of dt.

(** [a - b] on datetimes. *)
Definition datetime_sub (a b : datetime) : timedelta :=
  to_microseconds a - to_microseconds b.

(** [td.total_seconds()]: the quotient of two integers as a float. The
    conversion of the numerator is exact below 2^53 microseconds, some 285
    years. *)
Definition total_seconds (td : timedelta) : float :=
  (float_of_int td / float_of_int us_per_second)%float.

(** [int(x)] on a float: truncation toward zero. *)
Definition int_of_float (x : float) : result Z :=
  match Prim2SF x with
  | S754_nan => Err ValueError
  | S754_infinity _ => Err OverflowError
  | S754_zero _ => Ok 0
  | S754_finite s m e =>
      let a := if 0 <=? e then Z.pos m * 2 ^ e else Z.pos m / 2 ^ (- e) in
      Ok (if s then - a else a)
  end.

(** [round(x)] on a finite float: the nearest integer, ties to even. *)
Definition round_half_even (x : float) : Z :=
  match Prim2SF x with
  | S754_finite s m e =>
      let a :=
        if 0 <=? e then Z.pos m * 2 ^ e
        else
          let d := 2 ^ (- e) in
          let q := Z.pos m / d in
          let r := Z.pos m mod d in
          if 2 * r <? d then q
          else if d <? 2 * r then q + 1
          else if Z.even q then q else q + 1 in
      if s then - a else a
  | _ => 0
  end.

(** [timedelta(seconds=x)] for a float [x]: the whole seconds are taken
    exactly, the fraction is scaled to microseconds in float arithmetic and
    rounded half to even; more than 999999999 days is an [OverflowError]. *)
Definition timedelta_of_seconds (x : float) : result timedelta :=
  whole <- int_of_float x ;;
  let frac := (x - float_of_int whole)%float in
  let us := whole * us_per_second + round_half_even (1000000 * frac)%float in
  if (us <? - 999999999 * us_per_day) || (1000000000 * us_per_day <=? us)
  then Err OverflowError
  else Ok us.

(** [dt + td] *)
Definition datetime_add (dt : datetime) (td : timedelta) : result datetime :=
  let total := to_microseconds dt + td in
  let days := total / us_per_day in
  if (0 <? days) && (days <=? MAXORDINAL)
  then Ok (mkdatetime (fromordinal days) (total mod us_per_day))
  else Err OverflowError.

End Datetime.

Import Datetime.

Definition decimal_year_to_datetime (decimal_year : float) : result date :=
  let start := decimal_year in
  year <- int_of_float start ;;
  let rem := (start - float_of_int year)%float in
  base <- datetime_new year 1 1 ;;
  next <- datetime_replace_year base (Datetime.year (date_of base) + 1) ;;
  offset <- timedelta_of_seconds
              (total_seconds (datetime_sub next base) * rem)%float ;;
  result <- datetime_add base offset ;;
  let date := date_of result in
  date_replace_day date 1.

(** The values of binary64 floats, for the bounds on the float arithmetic
    of [decimal_year_to_datetime]. [sf_bounded k f] says that [f] is [+0]
    or positive and at most [2 ^ k]; [sf_trunc m e] is the whole part of
    the positive float [m * 2 ^ e]. *)
Definition sf_bounded (k : Z) (f : spec_float) : Prop :=
  match f with
  | S754_zero false => True
  | S754_finite false m e => (Z.pos m <= 2 ^ (k - e))%Z
  | _ => False
  end.

Definition sf_trunc (m : positive) (e : Z) : Z :=
  if (0 <=? e)%Z then (Z.pos m * 2 ^ e)%Z else (Z.pos m / 2 ^ (- e))%Z.

(** What the loops over one source do to [new_data] once no division can
    fail: [merge_year] is one iteration of the loop over [years]. *)
Definition merge_year (obs : list Observation) (new_data : AnnualMeans)
    (year : string) : AnnualMeans :=
  remove_dupes year new_data (arithmetic_mean (map snd (in_year year obs))).

Definition merge_source (new_data : AnnualMeans) (obs : list Observation)
  : AnnualMeans :=
  fold_left (merge_year obs) (years_of obs) new_data.

(** [data[satellite]] for a key known to be present. *)
Definition obs_of (data : SourceDataset) (satellite : string) : list Observation :=
  match dict_get data satellite with
  | Some obs => obs
  | None => []
  end.

Definition merge_sources (data : SourceDataset) (keys : list string)
    (new_data : AnnualMeans) : AnnualMeans :=
  fold_left (fun nd satellite => merge_source nd (obs_of data satellite))
    keys new_data.

(** The value [remove_dupes] leaves at one year, as a function of the value
    stored before. *)
Definition average_step (stored : option float) (mean : float) : option float :=
  match stored with
  | None => Some mean
  | Some prev => Some ((prev + mean) / 2)%float
  end.

Definition running_average (means : list float) : option float :=
  fold_left average_step means None.

(** The means the sources of [data] contribute to [year], in the order of
    the keys: one per source with an observation in that year. *)
Definition contributions (data : SourceDataset) (year : string) : list float :=
  flat_map
    (fun satellite =>
       match in_year year (obs_of data satellite) with
       | [] => []
       | pairs => [arithmetic_mean (map snd pairs)]
       end)
    (dict_keys data).


(** ** [data_to_datetime_csv] *)

(** All the observations of a dataset, source after source. *)
Definition all_pairs (data : SourceDataset) : list Observation :=
  flat_map (obs_of data) (dict_keys data).

Definition csv_header {V : Type} : list (field V) :=
  [Text "year"; Text "mean_sea_level"].

Section DatetimeCsv.

Variable py_float : string -> option float.

(** [decimal_year_to_datetime(float(pair[0]))] *)
Definition label_date (pair : Observation) : result date :=
  x <- float_of_string py_float (fst pair) ;;
  decimal_year_to_datetime x.

(** [for pair in data[satellite]: writer.writerow([..., pair[1]])]: the row
    is built before it is written, so a failing conversion writes nothing. *)
Fixpoint write_pairs (pairs : list Observation) (file : csv_file date)
  : csv_file date * result unit :=
  match pairs with
  | [] => (file, Ok tt)
  | p :: pairs' =>
      match label_date p with
      | Ok d => write_pairs pairs' (file ++ [[Val d; Num (snd p)]])
      | Err e => (file, Err e)
      end
  end.

(** [for satellite in data: ...] over the keys still to visit. *)
Fixpoint write_satellites (data : SourceDataset) (keys : list string)
    (file : csv_file date) : csv_file date * result unit :=
  match keys with
  | [] => (file, Ok tt)
  | satellite :: keys' =>
      match getitem data satellite with
      | Ok pairs =>
          match write_pairs pairs file with
          | (file', Ok _) => write_satellites data keys' file'
          | (file', Err e) => (file', Err e)
          end
      | Err e => (file, Err e)
      end
  end.

(** The contents of [Sarimax_Model_Data.csv] after the call, and how the
    call ends. *)
Definition data_to_datetime_csv (data : SourceDataset)
  : csv_file date * result unit :=
  write_satellites data (dict_keys data) [csv_header].

(** The row of one observation. *)
Definition dated_row (pair : Observation) (d : date) : list (field date) :=
  [Val d; Num (snd pair)].

End DatetimeCsv.

(** The rows of observations whose labels converted to [dates]. *)
Definition dated_rows (pairs : list Observation) (dates : list date)
  : csv_file date :=
  map (fun pd => dated_row (fst pd) (snd pd)) (combine pairs dates).

(** [float] on the time-labels of the examples of [data_to_datetime_csv];
    ["n/a"] is a label [float] rejects. *)
Definition example_label_float (s : string) : option float :=
  if String.eqb s "1993.25" then Some 1993.25%float
  else if String.eqb s "2004.5" then Some 2004.5%float
  else if String.eqb s "9999.5" then Some 9999.5%float
  else None.

(** * Properties *)

(** ** Dictionaries *)

Section DictFacts.
Context {V : Type}.
Implicit Types (d : dict V) (k : string) (v : V).

Lemma dict_get_set_same d k v : dict_get (dict_set d k v) k = Some v.
Proof.
  induction d as [|[k' v'] d IH]; simpl.
  - now rewrite String.eqb_refl.
  - destruct (String.eqb k k') eqn:E; simpl; rewrite E; auto.
Qed.

Lemma dict_get_set_other d k k0 v :
  k0 <> k -> dict_get (dict_set d k v) k0 = dict_get d k0.
Proof.
  intros Hne. induction d as [|[k' v'] d IH]; simpl.
  - destruct (String.eqb k0 k) eqn:E; auto.
    apply String.eqb_eq in E. contradiction.
  - destruct (String.eqb k k') eqn:E; simpl.
    + apply String.eqb_eq in E. subst k'.
      destruct (String.eqb k0 k) eqn:E0; auto.
      apply String.eqb_eq in E0. contradiction.
    + now rewrite IH.
Qed.

Lemma dict_set_absent d k v :
  dict_get d k = None -> dict_set d k v = d ++ [(k, v)].
Proof.
  induction d as [|[k' v'] d IH]; simpl; auto.
  destruct (String.eqb k k'); [discriminate|].
  intros H. now rewrite IH.
Qed.

Lemma dict_keys_set_present d k v v0 :
  dict_get d k = Some v0 -> dict_keys (dict_set d k v) = dict_keys d.
Proof.
  induction d as [|[k' v'] d IH]; simpl; [discriminate|].
  destruct (String.eqb k k') eqn:E; simpl; auto.
  intros H. now rewrite IH.
Qed.

Lemma dict_get_keys d k : In k (dict_keys d) <-> dict_get d k <> None.
Proof.
  induction d as [|[k' v'] d IH]; simpl.
  - tauto.
  - destruct (String.eqb k k') eqn:E.
    + apply String.eqb_eq in E. subst. split; [discriminate | auto].
    + apply String.eqb_neq in E. rewrite <- IH.
      split; [intros [H|H]; [congruence | auto] | auto].
Qed.
End DictFacts.

(** ** Floats *)

Lemma float_neq (x y : float) :
  PrimFloat.eqb x x = true -> PrimFloat.eqb x y = false -> x <> y.
Proof. intros Hx Hxy E. subst y. congruence. Qed.

(** ** The merge rule *)

Lemma remove_dupes_absent year new_data mean :
  dict_get new_data year = None ->
  remove_dupes year new_data mean = new_data ++ [(year, mean)].
Proof.
  intros H. unfold remove_dupes. rewrite H.
  now apply dict_set_absent.
Qed.

Lemma remove_dupes_present year new_data mean prev :
  dict_get new_data year = Some prev ->
  remove_dupes year new_data mean
  = dict_set new_data year ((prev + mean) / 2)%float.
Proof.
  intros H. unfold remove_dupes. now rewrite H.
Qed.

Lemma remove_dupes_other year new_data mean k :
  k <> year ->
  dict_get (remove_dupes year new_data mean) k = dict_get new_data k.
Proof.
  intros Hne. unfold remove_dupes.
  destruct (dict_get new_data year) eqn:E;
    now apply dict_get_set_other.
Qed.

(** C1: [remove_dupes] inserts [mean] at an absent key (as the last entry),
    replaces the value of a present key by [(prev + mean) / 2] without
    touching the key order, and leaves every other key alone; merging 10
    then 20 for one year gives 15, a third mean 40 gives 27.5, which is not
    the three-way mean 70 / 3. *)
Theorem remove_dupes_merge_rule :
  (forall year new_data mean,
      dict_get new_data year = None ->
      remove_dupes year new_data mean = new_data ++ [(year, mean)]
      /\ dict_get (remove_dupes year new_data mean) year = Some mean)
  /\ (forall year new_data mean prev,
      dict_get new_data year = Some prev ->
      dict_get (remove_dupes year new_data mean) year
      = Some ((prev + mean) / 2)%float
      /\ dict_keys (remove_dupes year new_data mean) = dict_keys new_data)
  /\ (forall year new_data mean k,
      k <> year ->
      dict_get (remove_dupes year new_data mean) k = dict_get new_data k)
  /\ (forall year,
      merge_all year [10; 20]%float = [(year, 15%float)]
      /\ merge_all year [10; 20; 40]%float = [(year, 27.5%float)])
  /\ (27.5 <> (10 + 20 + 40) / 3)%float.
Proof.
  split; [|split; [|split; [|split]]].
  - intros year new_data mean H. split.
    + now apply remove_dupes_absent.
    + rewrite remove_dupes_absent by assumption.
      rewrite <- (dict_set_absent _ _ _ H). apply dict_get_set_same.
  - intros year new_data mean prev H.
    rewrite (remove_dupes_present _ _ _ _ H). split.
    + apply dict_get_set_same.
    + eapply dict_keys_set_present; eassumption.
  - intros. now apply remove_dupes_other.
  - intros year. unfold merge_all, remove_dupes. simpl.
    rewrite !String.eqb_refl. simpl. rewrite !String.eqb_refl. simpl.
    split; reflexivity.
  - apply float_neq; reflexivity.
Qed.

Lemma remove_dupes_merge_rule_witness :
  dict_get (remove_dupes "1993" [("1992", 3%float); ("1993", 10%float)] 20)
    "1993"
  = Some ((10 + 20) / 2)%float
  /\ dict_keys (remove_dupes "1993" [("1992", 3%float); ("1993", 10%float)] 20)
     = dict_keys [("1992", 3%float); ("1993", 10%float)].
Proof.
  apply (proj1 (proj2 remove_dupes_merge_rule)). reflexivity.
Defined.

(** C9: the merge rule depends on the order of three contributions: the
    means 10, 20, 40 for one year give 27.5 in that order and 20 in the
    reverse order. *)
Theorem remove_dupes_order_dependent :
  exists a b c : float,
    forall year,
      dict_get (merge_all year [a; b; c]) year = Some 27.5%float
      /\ dict_get (merge_all year [c; b; a]) year = Some 20%float
      /\ dict_get (merge_all year [a; b; c]) year
         <> dict_get (merge_all year [c; b; a]) year.
Proof.
  exists 10%float, 20%float, 40%float. intros year.
  assert (H1 : merge_all year [10; 20; 40]%float = [(year, 27.5%float)]).
  { unfold merge_all, remove_dupes. simpl.
    rewrite !String.eqb_refl. simpl. rewrite !String.eqb_refl. reflexivity. }
  assert (H2 : merge_all year [40; 20; 10]%float = [(year, 20%float)]).
  { unfold merge_all, remove_dupes. simpl.
    rewrite !String.eqb_refl. simpl. rewrite !String.eqb_refl. reflexivity. }
  rewrite H1, H2. simpl. rewrite String.eqb_refl.
  split; [reflexivity | split; [reflexivity |]].
  intros E.
  apply (f_equal (fun o => match o with
                           | Some v => PrimFloat.eqb v 20
                           | None => false
                           end)) in E.
  vm_compute in E. discriminate E.
Qed.


(** ** Sets and sorting *)

Lemma set_add_In x y s : In y (set_add x s) <-> y = x \/ In y s.
Proof.
  induction s as [|z s IH]; simpl.
  - intuition.
  - destruct (String.eqb x z) eqn:E; simpl.
    + apply String.eqb_eq in E. subst z. intuition.
    + rewrite IH. intuition.
Qed.

Lemma set_add_NoDup x s : NoDup s -> NoDup (set_add x s).
Proof.
  induction s as [|z s IH]; simpl; intros Hnd.
  - constructor; [intros [] | constructor].
  - destruct (String.eqb x z) eqn:E; auto.
    apply String.eqb_neq in E. inversion_clear Hnd as [|? ? Hz Hs].
    constructor; auto.
    rewrite set_add_In. intros [->|H]; [now apply E | contradiction].
Qed.

Lemma set_of_acc l : forall s y,
  In y (fold_left (fun s x => set_add x s) l s) <-> In y s \/ In y l.
Proof.
  induction l as [|x l IH]; simpl; intros s y.
  - intuition.
  - rewrite IH, set_add_In. intuition.
Qed.

Lemma set_of_In l y : In y (set_of l) <-> In y l.
Proof. unfold set_of. rewrite set_of_acc. simpl. intuition. Qed.

Lemma set_of_NoDup l : NoDup (set_of l).
Proof.
  unfold set_of. generalize (NoDup_nil string).
  generalize (@nil string) as s.
  induction l as [|x l IH]; simpl; intros s Hs; auto.
  apply IH. now apply set_add_NoDup.
Qed.

Lemma insert_Permutation x l : Permutation (x :: l) (insert x l).
Proof.
  induction l as [|y l IH]; simpl; auto.
  destruct (String.leb x y); auto.
  rewrite perm_swap. now constructor.
Qed.

Lemma sorted_Permutation l : Permutation l (sorted l).
Proof.
  induction l as [|x l IH]; simpl; auto.
  rewrite <- insert_Permutation. now constructor.
Qed.



(** ** Years of a source *)

Lemma years_of_In obs year :
  In year (years_of obs) <-> exists pair, In pair obs /\ year_of pair = year.
Proof.
  unfold years_of.
  split.
  - intros H. apply (Permutation_in _ (Permutation_sym (sorted_Permutation _))) in H.
    apply set_of_In, in_map_iff in H. destruct H as [pair [E H]]. eauto.
  - intros [pair [H E]].
    apply (Permutation_in _ (sorted_Permutation _)).
    apply set_of_In, in_map_iff. eauto.
Qed.

Lemma years_of_NoDup obs : NoDup (years_of obs).
Proof.
  unfold years_of.
  eapply Permutation_NoDup; [apply sorted_Permutation | apply set_of_NoDup].
Qed.


Lemma in_year_In year obs pair :
  In pair (in_year year obs) <-> In pair obs /\ year_of pair = year.
Proof.
  unfold in_year. rewrite filter_In. rewrite String.eqb_eq. intuition.
Qed.

Lemma years_of_in_year obs year :
  In year (years_of obs) <-> in_year year obs <> [].
Proof.
  rewrite years_of_In. split.
  - intros [pair [H E]] Hnil.
    assert (Hin : In pair (in_year year obs)) by (apply in_year_In; auto).
    rewrite Hnil in Hin. contradiction.
  - destruct (in_year year obs) as [|pair l] eqn:E; [congruence|].
    intros _. exists pair. apply in_year_In. rewrite E. now left.
Qed.

(** ** The inner loop *)

Lemma sum_count_acc year obs : forall acc,
  fold_left (accumulate year) obs acc
  = (fold_left PrimFloat.add (map snd (in_year year obs)) (fst acc),
     (snd acc + Z.of_nat (List.length (in_year year obs)))%Z).
Proof.
  induction obs as [|pair obs IH]; intros [m c]; simpl.
  - now rewrite Z.add_0_r.
  - rewrite IH. unfold accumulate.
    destruct (String.eqb year (year_of pair)); simpl.
    + f_equal. lia.
    + reflexivity.
Qed.

Lemma sum_count_spec obs year :
  sum_count obs year
  = (fold_left PrimFloat.add (map snd (in_year year obs)) 0%float,
     Z.of_nat (List.length (in_year year obs))).
Proof. unfold sum_count. now rewrite sum_count_acc. Qed.

Lemma count_positive obs year :
  In year (years_of obs) -> (1 <= snd (sum_count obs year))%Z.
Proof.
  rewrite years_of_in_year, sum_count_spec. simpl.
  destruct (in_year year obs); [congruence | simpl; lia].
Qed.

Lemma annual_mean_spec obs year :
  In year (years_of obs) ->
  annual_mean obs year = Ok (arithmetic_mean (map snd (in_year year obs))).
Proof.
  intros H. unfold annual_mean, divide.
  pose proof (count_positive _ _ H) as Hc.
  destruct (Z.eqb_spec (snd (sum_count obs year)) 0) as [E|E]; [lia|].
  rewrite sum_count_spec. simpl. unfold arithmetic_mean.
  now rewrite length_map.
Qed.

(** ** The loops never fail *)

Lemma years_loop_ok obs years : forall new_data,
  incl years (years_of obs) ->
  years_loop obs years new_data = Ok (fold_left (merge_year obs) years new_data).
Proof.
  induction years as [|year years IH]; intros new_data Hincl; simpl.
  - reflexivity.
  - rewrite annual_mean_spec by (apply Hincl; now left). simpl.
    apply IH. intros y Hy. apply Hincl. now right.
Qed.

Lemma merge_sources_cons data satellite keys new_data :
  merge_sources data (satellite :: keys) new_data
  = merge_sources data keys (merge_source new_data (obs_of data satellite)).
Proof. reflexivity. Qed.

Lemma satellites_loop_ok data keys : forall new_data,
  incl keys (dict_keys data) ->
  satellites_loop data keys new_data = Ok (merge_sources data keys new_data).
Proof.
  induction keys as [|satellite keys IH]; intros new_data Hincl.
  - reflexivity.
  - assert (Hin : In satellite (dict_keys data)) by (apply Hincl; now left).
    apply dict_get_keys in Hin.
    rewrite merge_sources_cons. cbn [satellites_loop].
    unfold getitem, obs_of.
    destruct (dict_get data satellite) as [obs|] eqn:E; [|congruence].
    cbn [bind]. rewrite years_loop_ok by apply incl_refl. cbn [bind].
    apply IH. intros k Hk. apply Hincl. now right.
Qed.

Lemma group_means_ok data :
  group_means data = Ok (merge_sources data (dict_keys data) []).
Proof. apply satellites_loop_ok, incl_refl. Qed.

(** C3: the division [annual_mean /= count] never divides by zero: for every
    source of a dataset and every year of its sorted year set, at least one
    observation matches, so [count >= 1] and the division returns; hence
    [group_means] returns a mapping for every dataset. *)
Theorem group_means_no_division_by_zero :
  (forall (data : SourceDataset) satellite obs year,
      dict_get data satellite = Some obs ->
      In year (years_of obs) ->
      (1 <= snd (sum_count obs year))%Z
      /\ succeeds (annual_mean obs year))
  /\ (forall data : SourceDataset, succeeds (group_means data)).
Proof.
  split.
  - intros data satellite obs year _ Hy. split.
    + now apply count_positive.
    + eexists. now apply annual_mean_spec.
  - intros data. eexists. apply group_means_ok.
Qed.

Lemma group_means_no_division_by_zero_witness :
  (1 <= snd (sum_count [("1993.1", 10%float); ("1994.2", 20%float)] "1994"))%Z
  /\ succeeds (annual_mean [("1993.1", 10%float); ("1994.2", 20%float)] "1994").
Proof.
  apply (proj1 group_means_no_division_by_zero
           [("jason-1", [("1993.1", 10%float); ("1994.2", 20%float)])]
           "jason-1").
  - reflexivity.
  - vm_compute. auto.
Defined.

Example group_means_two_sources :
  group_means
    [("topex_pos", [("1994.1", 10%float); ("1993.9", 20%float);
                    ("1994.5", 5%float)]);
     ("jason-1", [("1994.3", 1%float); ("199", 2%float)])]
  = Ok [("1993", 20%float); ("1994", 4.25%float); ("199", 2%float)].
Proof. reflexivity. Qed.

(** ** Keys of the result *)

Lemma dict_keys_set {V : Type} (d : dict V) k v k0 :
  In k0 (dict_keys (dict_set d k v)) <-> k0 = k \/ In k0 (dict_keys d).
Proof.
  induction d as [|[k' v'] d IH]; simpl.
  - intuition.
  - destruct (String.eqb k k') eqn:E; simpl.
    + apply String.eqb_eq in E. subst k'. intuition.
    + rewrite IH. intuition.
Qed.

Lemma remove_dupes_keys year new_data mean k :
  In k (dict_keys (remove_dupes year new_data mean))
  <-> k = year \/ In k (dict_keys new_data).
Proof.
  unfold remove_dupes. destruct (dict_get new_data year); apply dict_keys_set.
Qed.

Lemma merge_years_keys obs years : forall new_data k,
  In k (dict_keys (fold_left (merge_year obs) years new_data))
  <-> In k years \/ In k (dict_keys new_data).
Proof.
  induction years as [|year years IH]; intros new_data k; simpl.
  - intuition.
  - rewrite IH. unfold merge_year. rewrite remove_dupes_keys. intuition.
Qed.

Lemma merge_sources_keys data keys : forall new_data k,
  In k (dict_keys (merge_sources data keys new_data))
  <-> (exists satellite, In satellite keys /\ In k (years_of (obs_of data satellite)))
      \/ In k (dict_keys new_data).
Proof.
  induction keys as [|satellite keys IH]; intros new_data k.
  - simpl. split; [auto | intros [[? [[] _]]|H]; exact H].
  - rewrite merge_sources_cons, IH. unfold merge_source. rewrite merge_years_keys.
    split.
    + intros [[s [Hs Hk]]|[Hk|Hk]].
      * left. exists s. split; [now right | exact Hk].
      * left. exists satellite. split; [now left | exact Hk].
      * now right.
    + intros [[s [[->|Hs] Hk]]|Hk].
      * right. now left.
      * left. eauto.
      * right. now right.
Qed.

(** C4: every year key of the mapping [group_means] returns is the
    four-character prefix of the label of an observation of some source of
    the dataset (and every such prefix is a key). *)
Theorem group_means_keys_come_from_observations :
  forall data : SourceDataset,
  exists means,
    group_means data = Ok means
    /\ forall year,
        In year (dict_keys means)
        <-> exists satellite obs pair,
            dict_get data satellite = Some obs
            /\ In pair obs
            /\ year_of pair = year.
Proof.
  intros data. eexists. split; [apply group_means_ok|].
  intros year. rewrite merge_sources_keys. simpl. split.
  - intros [[satellite [Hs Hy]]|[]].
    apply dict_get_keys in Hs. unfold obs_of in Hy.
    destruct (dict_get data satellite) as [obs|] eqn:E; [|congruence].
    apply years_of_In in Hy. destruct Hy as [pair [Hp Hy]].
    exists satellite, obs, pair. auto.
  - intros [satellite [obs [pair [Hs [Hp Hy]]]]]. left.
    exists satellite. split.
    + apply dict_get_keys. congruence.
    + unfold obs_of. rewrite Hs. apply years_of_In. eauto.
Qed.

(** ** A single source *)

Lemma NoDup_all_equal (l : list string) (y : string) :
  NoDup l -> In y l -> (forall x, In x l -> x = y) -> l = [y].
Proof.
  intros Hnd Hy Hall.
  destruct l as [|a [|b l]].
  - contradiction.
  - f_equal. apply Hall. now left.
  - exfalso. inversion_clear Hnd as [|? ? Ha _]. apply Ha.
    rewrite (Hall a) by (now left). rewrite <- (Hall b) by (right; now left).
    now left.
Qed.

Lemma in_year_all year obs :
  (forall pair, In pair obs -> year_of pair = year) -> in_year year obs = obs.
Proof.
  induction obs as [|pair obs IH]; intros Hall; simpl; auto.
  rewrite (Hall pair) by (now left). rewrite String.eqb_refl.
  f_equal. apply IH. intros p Hp. apply Hall. now right.
Qed.

Lemma years_of_single_year year obs :
  obs <> [] ->
  (forall pair, In pair obs -> year_of pair = year) ->
  years_of obs = [year].
Proof.
  intros Hne Hall. apply NoDup_all_equal.
  - apply years_of_NoDup.
  - apply years_of_in_year. now rewrite in_year_all.
  - intros y Hy. apply years_of_In in Hy. destruct Hy as [pair [Hp <-]].
    now apply Hall.
Qed.

(** C2: for a dataset with a single source whose observations all share one
    year prefix, [group_means] returns exactly that year mapped to the
    arithmetic mean of all the source's values; for topex_pos with
    ("1993.1", 10.0) and ("1993.9", 20.0) the mean of "1993" is 15.0. *)
Theorem group_means_single_source_single_year :
  (forall satellite (obs : list Observation) year,
      obs <> [] ->
      (forall pair, In pair obs -> year_of pair = year) ->
      group_means [(satellite, obs)]
      = Ok [(year, arithmetic_mean (map snd obs))])
  /\ group_means [("topex_pos", [("1993.1", 10%float); ("1993.9", 20%float)])]
     = Ok [("1993", 15%float)].
Proof.
  split; [|reflexivity].
  intros satellite obs year Hne Hall.
  rewrite group_means_ok. f_equal.
  cbn [dict_keys map fst]. rewrite merge_sources_cons.
  unfold obs_of. cbn [dict_get]. rewrite String.eqb_refl.
  unfold merge_sources, merge_source. cbn [fold_left].
  rewrite (years_of_single_year year) by assumption.
  cbn [fold_left]. unfold merge_year. rewrite in_year_all by assumption.
  reflexivity.
Qed.

Lemma group_means_single_source_single_year_witness :
  group_means [("jason-2", [("2010.0411", 1.5%float); ("2010.9", 2.5%float);
                            ("2010", 5%float)])]
  = Ok [("2010", arithmetic_mean [1.5; 2.5; 5]%float)].
Proof.
  apply (proj1 group_means_single_source_single_year "jason-2"
           [("2010.0411", 1.5%float); ("2010.9", 2.5%float); ("2010", 5%float)]
           "2010").
  - discriminate.
  - intros pair [<-|[<-|[<-|[]]]]; reflexivity.
Defined.

(** ** A year reported by exactly one source *)

Lemma merge_years_other obs year years : forall new_data,
  ~ In year years ->
  dict_get (fold_left (merge_year obs) years new_data) year
  = dict_get new_data year.
Proof.
  induction years as [|y years IH]; intros new_data Hnin; simpl.
  - reflexivity.
  - rewrite IH by (intros H; apply Hnin; now right).
    apply remove_dupes_other. intros ->. apply Hnin. now left.
Qed.

Lemma merge_years_fresh obs year years : forall new_data,
  NoDup years ->
  In year years ->
  dict_get new_data year = None ->
  dict_get (fold_left (merge_year obs) years new_data) year
  = Some (arithmetic_mean (map snd (in_year year obs))).
Proof.
  induction years as [|y years IH]; intros new_data Hnd Hin Hnone.
  - contradiction.
  - inversion_clear Hnd as [|? ? Hy Hnd']. simpl.
    destruct (String.eqb_spec y year) as [->|Hne].
    + rewrite merge_years_other by assumption.
      unfold merge_year. rewrite remove_dupes_absent by assumption.
      rewrite <- (dict_set_absent _ _ _ Hnone). apply dict_get_set_same.
    + destruct Hin as [E|Hin]; [contradiction|].
      apply IH; auto. unfold merge_year.
      rewrite remove_dupes_other by congruence. assumption.
Qed.

Lemma merge_sources_other data year keys : forall new_data,
  (forall k, In k keys -> ~ In year (years_of (obs_of data k))) ->
  dict_get (merge_sources data keys new_data) year = dict_get new_data year.
Proof.
  induction keys as [|k keys IH]; intros new_data Hnone.
  - reflexivity.
  - rewrite merge_sources_cons, IH by (intros k' Hk'; apply Hnone; now right).
    apply merge_years_other. apply Hnone. now left.
Qed.

Lemma merge_sources_single data year satellite keys : forall new_data,
  NoDup keys ->
  In satellite keys ->
  In year (years_of (obs_of data satellite)) ->
  (forall k, In k keys -> k <> satellite ->
             ~ In year (years_of (obs_of data k))) ->
  dict_get new_data year = None ->
  dict_get (merge_sources data keys new_data) year
  = Some (arithmetic_mean (map snd (in_year year (obs_of data satellite)))).
Proof.
  induction keys as [|k keys IH]; intros new_data Hnd Hin Hy Hothers Hnone.
  - contradiction.
  - inversion_clear Hnd as [|? ? Hk Hnd']. rewrite merge_sources_cons.
    destruct (String.eqb_spec k satellite) as [->|Hne].
    + rewrite merge_sources_other.
      * apply merge_years_fresh; auto. apply years_of_NoDup.
      * intros k' Hk'. apply Hothers; [now right|]. intros ->. contradiction.
    + destruct Hin as [E|Hin]; [contradiction|].
      apply IH; auto.
      * intros k' Hk'. apply Hothers. now right.
      * unfold merge_source. rewrite merge_years_other; auto.
        apply Hothers; [now left | assumption].
Qed.

(** C10: when exactly one source of a dataset has observations with year
    prefix [year], the value [group_means] returns for [year] is that
    source's arithmetic mean for the year, with no further averaging; the
    years of a source are visited without repetition, so [remove_dupes] runs
    at most once for a source and a year. *)
Theorem group_means_single_contributor :
  forall (data : SourceDataset) satellite obs year,
    NoDup (dict_keys data) ->
    dict_get data satellite = Some obs ->
    in_year year obs <> [] ->
    (forall satellite' obs',
        satellite' <> satellite ->
        dict_get data satellite' = Some obs' ->
        in_year year obs' = []) ->
    NoDup (years_of obs)
    /\ exists means,
        group_means data = Ok means
        /\ dict_get means year
           = Some (arithmetic_mean (map snd (in_year year obs))).
Proof.
  intros data satellite obs year Hnd Hs Hy Hothers.
  split; [apply years_of_NoDup|].
  eexists. split; [apply group_means_ok|].
  assert (Hobs : obs_of data satellite = obs) by (unfold obs_of; now rewrite Hs).
  rewrite <- Hobs.
  apply merge_sources_single; auto.
  - apply dict_get_keys. congruence.
  - rewrite Hobs. now apply years_of_in_year.
  - intros k Hk Hne. rewrite years_of_in_year. intros H. apply H.
    unfold obs_of. destruct (dict_get data k) as [obs'|] eqn:E; [|reflexivity].
    now apply (Hothers k).
Qed.

Lemma group_means_single_contributor_witness :
  NoDup (years_of [("1993.2", 4%float); ("1994.1", 1%float); ("1993.7", 8%float)])
  /\ exists means,
      group_means
        [("topex_pos", [("1992.9", 3%float); ("1994.5", 7%float)]);
         ("jason-1", [("1993.2", 4%float); ("1994.1", 1%float); ("1993.7", 8%float)])]
      = Ok means
      /\ dict_get means "1993"
         = Some (arithmetic_mean
                   (map snd (in_year "1993"
                      [("1993.2", 4%float); ("1994.1", 1%float); ("1993.7", 8%float)]))).
Proof.
  apply (group_means_single_contributor
           [("topex_pos", [("1992.9", 3%float); ("1994.5", 7%float)]);
            ("jason-1", [("1993.2", 4%float); ("1994.1", 1%float); ("1993.7", 8%float)])]
           "jason-1").
  - repeat constructor; simpl; intuition discriminate.
  - reflexivity.
  - discriminate.
  - intros s obs' Hne. simpl.
    destruct (String.eqb s "topex_pos").
    + intros [= <-]. reflexivity.
    + destruct (String.eqb_spec s "jason-1"); [contradiction | discriminate].
Defined.

(** ** The reader *)

Section ReaderFacts.

Variable py_float : string -> option float.

Lemma skip_rows_skipn n : forall reader,
  n <= List.length reader -> skip_rows n reader = Ok (skipn n reader).
Proof.
  induction n as [|n IH]; intros [|row reader] Hlen; simpl in *;
    try reflexivity; try lia.
  apply IH. lia.
Qed.

Lemma skipn_preamble (preamble rows : list Row) :
  skipn (List.length preamble) (preamble ++ rows) = rows.
Proof. induction preamble as [|row preamble IH]; simpl; auto. Qed.

Lemma skip_rows_short n : forall reader,
  List.length reader < n -> skip_rows n reader = Err StopIteration.
Proof.
  induction n as [|n IH]; intros [|row reader] Hlen; simpl in *;
    try reflexivity; try lia.
  apply IH. lia.
Qed.

Lemma read_column_step row i name d l c :
  nth_error row i = Some c ->
  dict_get d name = Some l ->
  read_column py_float row i name d
  = if String.eqb c "" then Ok d
    else match nth_error row 0 with
         | None => Err IndexError
         | Some label =>
             match py_float c with
             | None => Err ValueError
             | Some value => Ok (dict_set d name (l ++ [(label, value)]))
             end
         end.
Proof.
  intros Hc Hl. unfold read_column, column, getitem, float_of_string.
  rewrite Hc, Hl. cbn [bind].
  destruct (String.eqb c ""); [reflexivity|].
  destruct (nth_error row 0); [|reflexivity]. cbn [bind].
  destruct (py_float c); reflexivity.
Qed.

Lemma read_column_short row i name d :
  nth_error row i = None -> read_column py_float row i name d = Err IndexError.
Proof. intros H. unfold read_column, column. now rewrite H. Qed.

Lemma row_ok_or_bad row : row_ok py_float row \/ row_bad py_float row.
Proof.
  assert (Hcell : forall i, cell_ok py_float row i \/ cell_bad py_float row i).
  { intros i. unfold cell_ok, cell_bad.
    destruct (nth_error row i) as [c|]; [|left; discriminate].
    destruct (String.eqb_spec c "") as [->|Hne].
    - left. intros c [= <-] H. now contradiction H.
    - destruct (py_float c) eqn:E.
      + left. intros c' [= <-] _. congruence.
      + right. eauto. }
  unfold row_ok, row_bad.
  destruct (Nat.lt_ge_cases (List.length row) 5) as [Hlen|Hlen];
    destruct (Hcell 1), (Hcell 2), (Hcell 3), (Hcell 4); tauto.
Qed.

Lemma row_bad_not_ok row : row_bad py_float row -> ~ row_ok py_float row.
Proof.
  unfold row_bad, row_ok, cell_bad, cell_ok.
  intros Hbad [Hlen [H1 [H2 [H3 H4]]]].
  destruct Hbad as [Hb|[Hb|[Hb|[Hb|Hb]]]]; [lia| | | |];
    destruct Hb as [c [Hc [Hne Hnone]]];
    [apply (H1 c)|apply (H2 c)|apply (H3 c)|apply (H4 c)]; assumption.
Qed.

Lemma read_row_ok row l1 l2 l3 l4 :
  row_ok py_float row ->
  read_row py_float (dataset4 l1 l2 l3 l4) row
  = Ok (dataset4 (l1 ++ row_observation py_float 1 row)
                 (l2 ++ row_observation py_float 2 row)
                 (l3 ++ row_observation py_float 3 row)
                 (l4 ++ row_observation py_float 4 row)).
Proof.
  intros [Hlen [H1 [H2 [H3 H4]]]].
  destruct row as [|c0 [|c1 [|c2 [|c3 [|c4 rest]]]]]; simpl in Hlen; try lia.
  clear Hlen. unfold read_row, row_observation. cbn [nth_error].
  specialize (H1 c1 eq_refl). specialize (H2 c2 eq_refl).
  specialize (H3 c3 eq_refl). specialize (H4 c4 eq_refl).
  rewrite (read_column_step _ 1 _ _ l1 c1) by reflexivity.
  destruct (String.eqb_spec c1 "") as [E1|E1];
    [|destruct (py_float c1); [|now contradiction (H1 E1)]]; cbn [nth_error bind];
  (rewrite (read_column_step _ 2 _ _ l2 c2) by reflexivity;
   destruct (String.eqb_spec c2 "") as [E2|E2];
     [|destruct (py_float c2); [|now contradiction (H2 E2)]]; cbn [nth_error bind];
   (rewrite (read_column_step _ 3 _ _ l3 c3) by reflexivity;
    destruct (String.eqb_spec c3 "") as [E3|E3];
      [|destruct (py_float c3); [|now contradiction (H3 E3)]]; cbn [nth_error bind];
    (rewrite (read_column_step _ 4 _ _ l4 c4) by reflexivity;
     destruct (String.eqb_spec c4 "") as [E4|E4];
       [|destruct (py_float c4); [|now contradiction (H4 E4)]]; cbn [nth_error bind];
     rewrite ?app_nil_r; reflexivity))).
Qed.

Lemma read_column_cases row i name d l :
  dict_get d name = Some l ->
  (read_column py_float row i name d = Err IndexError)
  \/ (read_column py_float row i name d = Err ValueError)
  \/ (exists l', read_column py_float row i name d = Ok (dict_set d name l')
                 /\ i < List.length row /\ cell_ok py_float row i).
Proof.
  intros Hl. destruct (nth_error row i) as [c|] eqn:Hc.
  - rewrite (read_column_step _ _ _ _ _ _ Hc Hl).
    assert (Hi : i < List.length row) by (apply nth_error_Some; congruence).
    destruct (String.eqb_spec c "") as [->|Hne].
    + right. right. exists l. split; [|split; [exact Hi|]].
      * cbn [String.eqb]. f_equal. clear - Hl.
        induction d as [|[k v] d IH]; simpl in *; [discriminate|].
        destruct (String.eqb name k); [now injection Hl as -> | now rewrite <- IH].
      * intros c Hc' H. rewrite Hc in Hc'. injection Hc' as <-.
        now contradiction H.
    + destruct (nth_error row 0); [|now left].
      destruct (py_float c) eqn:E; [|right; now left].
      right. right. eexists. split; [reflexivity | split; [exact Hi|]].
      intros c' Hc' _. rewrite Hc in Hc'. injection Hc' as <-. congruence.
  - left. now apply read_column_short.
Qed.

Lemma read_row_bad row l1 l2 l3 l4 :
  row_bad py_float row ->
  read_row py_float (dataset4 l1 l2 l3 l4) row = Err IndexError
  \/ read_row py_float (dataset4 l1 l2 l3 l4) row = Err ValueError.
Proof.
  intros Hbad. unfold read_row.
  destruct (read_column_cases row 1 "topex_pos" (dataset4 l1 l2 l3 l4) l1 eq_refl)
    as [E|[E|[l1' [E [_ H1]]]]]; rewrite E; cbn [bind]; auto.
  change (dict_set (dataset4 l1 l2 l3 l4) "topex_pos" l1')
    with (dataset4 l1' l2 l3 l4).
  destruct (read_column_cases row 2 "jason-1" (dataset4 l1' l2 l3 l4) l2 eq_refl)
    as [E2|[E2|[l2' [E2 [_ H2]]]]]; rewrite E2; cbn [bind]; auto.
  change (dict_set (dataset4 l1' l2 l3 l4) "jason-1" l2')
    with (dataset4 l1' l2' l3 l4).
  destruct (read_column_cases row 3 "jason-2" (dataset4 l1' l2' l3 l4) l3 eq_refl)
    as [E3|[E3|[l3' [E3 [_ H3]]]]]; rewrite E3; cbn [bind]; auto.
  change (dict_set (dataset4 l1' l2' l3 l4) "jason-2" l3')
    with (dataset4 l1' l2' l3' l4).
  destruct (read_column_cases row 4 "jason-3" (dataset4 l1' l2' l3' l4) l4 eq_refl)
    as [E4|[E4|[l4' [E4 [Hlen H4]]]]]; auto.
  exfalso. apply (row_bad_not_ok row Hbad).
  unfold row_ok. repeat split; auto.
Qed.

Lemma read_rows_ok rows : forall l1 l2 l3 l4,
  Forall (row_ok py_float) rows ->
  read_rows py_float rows (dataset4 l1 l2 l3 l4)
  = Ok (dataset4 (l1 ++ column_observations py_float 1 rows)
                 (l2 ++ column_observations py_float 2 rows)
                 (l3 ++ column_observations py_float 3 rows)
                 (l4 ++ column_observations py_float 4 rows)).
Proof.
  induction rows as [|row rows IH]; intros l1 l2 l3 l4 Hok.
  - simpl. now rewrite !app_nil_r.
  - inversion_clear Hok as [|? ? Hrow Hrows].
    cbn [read_rows]. rewrite read_row_ok by assumption. cbn [bind].
    rewrite IH by assumption.
    unfold column_observations. cbn [flat_map]. now rewrite !app_assoc.
Qed.

Lemma read_rows_bad rows : forall l1 l2 l3 l4,
  Exists (row_bad py_float) rows ->
  read_rows py_float rows (dataset4 l1 l2 l3 l4) = Err IndexError
  \/ read_rows py_float rows (dataset4 l1 l2 l3 l4) = Err ValueError.
Proof.
  induction rows as [|row rows IH]; intros l1 l2 l3 l4 Hbad.
  - inversion Hbad.
  - cbn [read_rows].
    destruct (row_ok_or_bad row) as [Hok|Hrow].
    + rewrite read_row_ok by assumption. cbn [bind]. apply IH.
      inversion_clear Hbad as [? ? Hrow|]; [|assumption].
      now contradiction (row_bad_not_ok row).
    + destruct (read_row_bad row l1 l2 l3 l4 Hrow) as [E|E];
        rewrite E; cbn [bind]; auto.
Qed.

Lemma Forall_ok_or_Exists_bad rows :
  Forall (row_ok py_float) rows \/ Exists (row_bad py_float) rows.
Proof.
  induction rows as [|row rows [IH|IH]].
  - left. constructor.
  - destruct (row_ok_or_bad row); [left | right]; now constructor.
  - right. now constructor.
Qed.

Lemma column_observations_In i rows label value :
  In (label, value) (column_observations py_float i rows) ->
  exists row c,
    In row rows /\ nth_error row i = Some c /\ c <> ""
    /\ py_float c = Some value /\ nth_error row 0 = Some label.
Proof.
  unfold column_observations. rewrite in_flat_map.
  intros [row [Hrow Hin]]. unfold row_observation in Hin.
  destruct (nth_error row i) as [c|] eqn:Hc; [|contradiction].
  destruct (nth_error row 0) as [l|] eqn:H0; [|contradiction].
  destruct (String.eqb_spec c "") as [->|Hne]; [contradiction|].
  destruct (py_float c) as [v|] eqn:Hv; [|contradiction].
  destruct Hin as [[= <- <-]|[]]. exists row, c. auto.
Qed.

(** C5: on a well-formed file (a 6-row preamble, then data rows of at least
    5 columns whose value columns are empty or numeric) [read_csv_data]
    returns a mapping with exactly the keys topex_pos, jason-1, jason-2,
    jason-3; the observations of each source are, row by row, the non-empty
    values of its column, parsed and paired with the row's time-label, so
    none comes from an empty column. *)
Theorem read_csv_data_well_formed :
  forall preamble rows,
    List.length preamble = 6 ->
    Forall (row_ok py_float) rows ->
    read_csv_data py_float (preamble ++ rows)
    = Ok [("topex_pos", column_observations py_float 1 rows);
          ("jason-1", column_observations py_float 2 rows);
          ("jason-2", column_observations py_float 3 rows);
          ("jason-3", column_observations py_float 4 rows)]
    /\ forall i label value,
        In (label, value) (column_observations py_float i rows) ->
        exists row c,
          In row rows /\ nth_error row i = Some c /\ c <> ""
          /\ py_float c = Some value /\ nth_error row 0 = Some label.
Proof.
  intros preamble rows Hlen Hok. split.
  - unfold read_csv_data.
    rewrite skip_rows_skipn by (rewrite length_app; lia). cbn [bind].
    rewrite <- Hlen, skipn_preamble.
    unfold data_sea_level_init. now rewrite read_rows_ok.
  - intros i label value. apply column_observations_In.
Qed.

(** On any list of rows: [read_csv_data] fails exactly when there are fewer
    than 6 rows, where skipping the preamble raises [StopIteration], or some
    row after the first six is malformed, where the run aborts with
    [IndexError] or [ValueError]. *)
Lemma read_csv_data_fails_iff :
  forall file,
    (fails (read_csv_data py_float file)
     <-> List.length file < 6 \/ Exists (row_bad py_float) (skipn 6 file))
    /\ (List.length file < 6 -> read_csv_data py_float file = Err StopIteration)
    /\ (6 <= List.length file ->
        Exists (row_bad py_float) (skipn 6 file) ->
        read_csv_data py_float file = Err IndexError
        \/ read_csv_data py_float file = Err ValueError).
Proof.
  intros file.
  assert (Hshort : List.length file < 6 ->
                   read_csv_data py_float file = Err StopIteration).
  { intros Hlen. unfold read_csv_data. now rewrite skip_rows_short. }
  assert (Hbad : 6 <= List.length file ->
                 Exists (row_bad py_float) (skipn 6 file) ->
                 read_csv_data py_float file = Err IndexError
                 \/ read_csv_data py_float file = Err ValueError).
  { intros Hlen Hex. unfold read_csv_data.
    rewrite skip_rows_skipn by assumption. cbn [bind].
    now apply read_rows_bad. }
  split; [|split; assumption].
  split.
  - intros [e He].
    destruct (Nat.lt_ge_cases (List.length file) 6) as [Hlen|Hlen]; [now left|].
    right. destruct (Forall_ok_or_Exists_bad (skipn 6 file)) as [Hok|Hex]; auto.
    exfalso. unfold read_csv_data in He.
    rewrite skip_rows_skipn in He by assumption. cbn [bind] in He.
    unfold data_sea_level_init in He. rewrite read_rows_ok in He by assumption.
    discriminate.
  - intros [Hlen|Hex].
    + eexists. now apply Hshort.
    + destruct (Nat.lt_ge_cases (List.length file) 6) as [Hlen|Hlen].
      * eexists. now apply Hshort.
      * destruct (Hbad Hlen Hex) as [E|E]; eexists; exact E.
Qed.

(** C6: on a file with its 6-row preamble, [read_csv_data] fails (propagates
    an error rather than returning) exactly when some data row after the
    preamble has fewer than 5 columns or holds a non-empty value in columns
    1 to 4 that is not a number; on every such file the run aborts with a
    propagated [IndexError] or [ValueError]. *)
Theorem read_csv_data_fails_exactly_on_bad_rows :
  forall preamble rows,
    List.length preamble = 6 ->
    (fails (read_csv_data py_float (preamble ++ rows))
     <-> Exists (row_bad py_float) rows)
    /\ (Exists (row_bad py_float) rows ->
        read_csv_data py_float (preamble ++ rows) = Err IndexError
        \/ read_csv_data py_float (preamble ++ rows) = Err ValueError).
Proof.
  intros preamble rows Hlen.
  assert (Hskip : skip_rows 6 (preamble ++ rows) = Ok rows).
  { rewrite skip_rows_skipn by (rewrite length_app; lia).
    now rewrite <- Hlen, skipn_preamble. }
  assert (Hbad : Exists (row_bad py_float) rows ->
                 read_csv_data py_float (preamble ++ rows) = Err IndexError
                 \/ read_csv_data py_float (preamble ++ rows) = Err ValueError).
  { intros Hex. unfold read_csv_data. rewrite Hskip. cbn [bind].
    now apply read_rows_bad. }
  split; [split|exact Hbad].
  - intros [e He].
    destruct (Forall_ok_or_Exists_bad rows) as [Hok|Hex]; [exfalso | exact Hex].
    unfold read_csv_data in He. rewrite Hskip in He. cbn [bind] in He.
    unfold data_sea_level_init in He. rewrite read_rows_ok in He by assumption.
    discriminate.
  - intros Hex. destruct (Hbad Hex) as [E|E]; eexists; exact E.
Qed.

End ReaderFacts.

Lemma read_csv_data_well_formed_witness :
  read_csv_data example_float
    ([["Sea level"]; ["Vancouver"]; []; ["mm"]; ["#"];
      ["year"; "topex_pos"; "jason-1"; "jason-2"; "jason-3"]]
       ++ [["1993.0411"; "10.0"; ""; ""; ""; "note"];
           ["2002.5"; "20.0"; "-3.5"; ""; ""]])
  = Ok [("topex_pos", [("1993.0411", 10%float); ("2002.5", 20%float)]);
        ("jason-1", [("2002.5", (-3.5)%float)]);
        ("jason-2", []);
        ("jason-3", [])].
Proof.
  refine (proj1 (read_csv_data_well_formed example_float
                   [["Sea level"]; ["Vancouver"]; []; ["mm"]; ["#"];
                    ["year"; "topex_pos"; "jason-1"; "jason-2"; "jason-3"]]
                   [["1993.0411"; "10.0"; ""; ""; ""; "note"];
                    ["2002.5"; "20.0"; "-3.5"; ""; ""]] _ _)).
  - reflexivity.
  - repeat constructor; simpl; try lia;
      intros c [= <-] Hne; solve [discriminate | now contradiction Hne].
Defined.

Lemma read_csv_data_fails_exactly_on_bad_rows_witness :
  (fails (read_csv_data example_float
            ([["Sea level"]; ["Vancouver"]; []; ["mm"]; ["#"];
              ["year"; "topex_pos"; "jason-1"; "jason-2"; "jason-3"]]
               ++ [["1993.0411"; "10.0"; ""; ""; ""];
                   ["1993.1"; ""; "n/a"; ""; ""]]))
   <-> Exists (row_bad example_float)
         [["1993.0411"; "10.0"; ""; ""; ""]; ["1993.1"; ""; "n/a"; ""; ""]])
  /\ (Exists (row_bad example_float)
         [["1993.0411"; "10.0"; ""; ""; ""]; ["1993.1"; ""; "n/a"; ""; ""]] ->
      read_csv_data example_float
        ([["Sea level"]; ["Vancouver"]; []; ["mm"]; ["#"];
          ["year"; "topex_pos"; "jason-1"; "jason-2"; "jason-3"]]
           ++ [["1993.0411"; "10.0"; ""; ""; ""];
               ["1993.1"; ""; "n/a"; ""; ""]])
      = Err IndexError
      \/ read_csv_data example_float
           ([["Sea level"]; ["Vancouver"]; []; ["mm"]; ["#"];
             ["year"; "topex_pos"; "jason-1"; "jason-2"; "jason-3"]]
              ++ [["1993.0411"; "10.0"; ""; ""; ""];
                  ["1993.1"; ""; "n/a"; ""; ""]])
         = Err ValueError).
Proof.
  apply (read_csv_data_fails_exactly_on_bad_rows example_float
           [["Sea level"]; ["Vancouver"]; []; ["mm"]; ["#"];
            ["year"; "topex_pos"; "jason-1"; "jason-2"; "jason-3"]]).
  reflexivity.
Defined.

(** The failures on the rows used above: a value that is not a number, a
    row that is too short, and a list of rows that ends inside the preamble
    skip. *)
Example read_csv_data_errors :
  read_csv_data example_float
    [["Sea level"]; ["Vancouver"]; []; ["mm"]; ["#"];
     ["year"; "topex_pos"; "jason-1"; "jason-2"; "jason-3"];
     ["1993.0411"; "10.0"; ""; ""; ""];
     ["1993.1"; ""; "n/a"; ""; ""]]
  = Err ValueError
  /\ read_csv_data example_float
       [["Sea level"]; ["Vancouver"]; []; ["mm"]; ["#"];
        ["year"; "topex_pos"; "jason-1"; "jason-2"; "jason-3"];
        ["1993.0411"; "10.0"; ""]]
     = Err IndexError
  /\ read_csv_data example_float [["Sea level"]; ["Vancouver"]]
     = Err StopIteration.
Proof. repeat split; reflexivity. Qed.

(** ** The forecast bridge *)

Section WriterFacts.

Context {V : Type}.

Lemma range_length lo hi : List.length (range lo hi) = Z.to_nat (hi - lo).
Proof. unfold range. now rewrite length_map, length_seq. Qed.

Lemma list_getitem_app (seen rest : list V) :
  list_getitem (seen ++ rest) (Z.of_nat (List.length seen))
  = match rest with
    | v :: _ => Ok v
    | [] => Err IndexError
    end.
Proof.
  unfold list_getitem. rewrite length_app.
  destruct (Z.ltb_spec (Z.of_nat (List.length seen)) 0) as [H|_]; [lia|].
  destruct rest as [|v rest].
  - simpl. rewrite Nat.add_0_r.
    destruct (Z.leb_spec 0 (Z.of_nat (List.length seen))) as [_|H]; [|lia].
    destruct (Z.ltb_spec (Z.of_nat (List.length seen))
                (Z.of_nat (List.length seen))) as [H|_]; [lia|].
    reflexivity.
  - destruct (Z.leb_spec 0 (Z.of_nat (List.length seen))) as [_|H]; [|lia].
    destruct (Z.ltb_spec (Z.of_nat (List.length seen))
                (Z.of_nat (List.length seen + List.length (v :: rest))))
      as [_|H]; [|simpl in H; lia].
    simpl andb. cbv iota. rewrite Nat2Z.id, nth_error_app2 by lia.
    now rewrite Nat.sub_diag.
Qed.

(** The loop appends one row per year while predicted values remain, and
    stops with [IndexError] at the first year without one. *)
Lemma predict_loop_spec (years : list Z) : forall (seen rest : list V) file,
  predict_loop years (Z.of_nat (List.length seen)) (seen ++ rest) file
  = (file ++ map (fun yv => [Int (fst yv); Val (snd yv)]) (combine years rest),
     if (List.length years <=? List.length rest)%nat then Ok tt
     else Err IndexError).
Proof.
  induction years as [|year years IH]; intros seen rest file.
  - simpl. now rewrite app_nil_r.
  - cbn [predict_loop]. rewrite list_getitem_app.
    destruct rest as [|v rest].
    + simpl. now rewrite app_nil_r.
    + replace (Z.of_nat (List.length seen) + 1)%Z
        with (Z.of_nat (List.length (seen ++ [v])))
        by (rewrite length_app; simpl; lia).
      replace (seen ++ v :: rest) with ((seen ++ [v]) ++ rest)
        by (now rewrite <- app_assoc).
      rewrite IH. cbn [combine map fst snd List.length].
      rewrite <- app_assoc. reflexivity.
Qed.

Lemma predict_data_spec (end_year_exclusive : Z) (predicted : list V) file :
  predict_data (end_year_exclusive, predicted) file
  = (file ++ forecast_rows end_year_exclusive predicted,
     if (end_year_exclusive - 2021 <=? Z.of_nat (List.length predicted))%Z
     then Ok tt else Err IndexError).
Proof.
  unfold predict_data, forecast_rows. cbn [fst snd].
  rewrite (predict_loop_spec _ [] predicted file). f_equal.
  rewrite range_length.
  destruct (Nat.leb_spec (Z.to_nat (end_year_exclusive - 2021))
              (List.length predicted));
    destruct (Z.leb_spec (end_year_exclusive - 2021)
                (Z.of_nat (List.length predicted))); auto; lia.
Qed.

Lemma nth_error_combine {A B : Type} (l1 : list A) (l2 : list B) : forall k a b,
  nth_error l1 k = Some a ->
  nth_error l2 k = Some b ->
  nth_error (combine l1 l2) k = Some (a, b).
Proof.
  revert l2. induction l1 as [|x l1 IH]; intros [|y l2] [|k] a b H1 H2;
    simpl in *; try discriminate.
  - congruence.
  - now apply IH.
Qed.

Lemma nth_error_seq_lt n : forall start k,
  k < n -> nth_error (seq start n) k = Some (start + k).
Proof.
  induction n as [|n IH]; intros start [|k] Hk; simpl; try lia.
  - now rewrite Nat.add_0_r.
  - rewrite IH by lia. f_equal. lia.
Qed.

Lemma nth_error_range lo hi k :
  k < Z.to_nat (hi - lo) ->
  nth_error (range lo hi) k = Some (lo + Z.of_nat k)%Z.
Proof.
  intros Hk. unfold range.
  rewrite nth_error_map, nth_error_seq_lt by assumption. reflexivity.
Qed.

Lemma forecast_rows_length (end_year_exclusive : Z) (predicted : list V) :
  List.length (forecast_rows end_year_exclusive predicted)
  = Nat.min (Z.to_nat (end_year_exclusive - 2021)) (List.length predicted).
Proof.
  unfold forecast_rows. now rewrite length_map, length_combine, range_length.
Qed.

Lemma forecast_rows_nth (end_year_exclusive : Z) (predicted : list V) k v :
  k < Z.to_nat (end_year_exclusive - 2021) ->
  nth_error predicted k = Some v ->
  nth_error (forecast_rows end_year_exclusive predicted) k
  = Some [Int (2021 + Z.of_nat k); Val v].
Proof.
  intros Hk Hv. unfold forecast_rows.
  rewrite nth_error_map.
  rewrite (nth_error_combine _ _ k (2021 + Z.of_nat k)%Z v); auto.
  now apply nth_error_range.
Qed.

(** C7: given the external routine's result [(end_year_exclusive,
    predicted)], [predict_data] appends one row per year from 2021 up to but
    excluding [end_year_exclusive], the k-th holding the year [2021 + k] and
    the k-th predicted value; with fewer values than
    [end_year_exclusive - 2021] it fails with [IndexError], after the rows
    of the years that had a value. *)
Theorem predict_data_appends_forecast :
  forall (end_year_exclusive : Z) (predicted : list V) (file : csv_file V),
    ((end_year_exclusive - 2021 <= Z.of_nat (List.length predicted))%Z ->
     predict_data (end_year_exclusive, predicted) file
     = (file ++ forecast_rows end_year_exclusive predicted, Ok tt)
     /\ List.length (forecast_rows end_year_exclusive predicted)
        = Z.to_nat (end_year_exclusive - 2021)
     /\ forall k,
         k < Z.to_nat (end_year_exclusive - 2021) ->
         exists v,
           nth_error predicted k = Some v
           /\ nth_error (forecast_rows end_year_exclusive predicted) k
              = Some [Int (2021 + Z.of_nat k); Val v])
    /\ ((Z.of_nat (List.length predicted) < end_year_exclusive - 2021)%Z ->
        predict_data (end_year_exclusive, predicted) file
        = (file ++ forecast_rows end_year_exclusive predicted, Err IndexError)
        /\ List.length (forecast_rows end_year_exclusive predicted)
           = List.length predicted).
Proof.
  intros end_year_exclusive predicted file.
  rewrite predict_data_spec, forecast_rows_length. split.
  - intros Hle.
    destruct (Z.leb_spec (end_year_exclusive - 2021)
                (Z.of_nat (List.length predicted))) as [_|H]; [|lia].
    split; [reflexivity | split; [lia|]].
    intros k Hk.
    destruct (nth_error predicted k) as [v|] eqn:Hv.
    + exists v. split; [reflexivity | now apply forecast_rows_nth].
    + apply nth_error_None in Hv. lia.
  - intros Hlt.
    destruct (Z.leb_spec (end_year_exclusive - 2021)
                (Z.of_nat (List.length predicted))) as [H|_]; [lia|].
    split; [reflexivity | lia].
Qed.

End WriterFacts.

Lemma predict_data_appends_forecast_witness :
  predict_data (2024%Z, [7.5; 8; 8.25; 9]%float)
    [[Text "year"; Text "mean_sea_level"]; [Text "2020"; Num 7%float]]
  = ([[Text "year"; Text "mean_sea_level"]; [Text "2020"; Num 7%float]]
       ++ forecast_rows 2024 [7.5; 8; 8.25; 9]%float, Ok tt)
  /\ predict_data (2024%Z, [7.5; 8]%float) [[Text "year"; Text "mean_sea_level"]]
     = ([[Text "year"; Text "mean_sea_level"]]
          ++ forecast_rows 2024 [7.5; 8]%float, Err IndexError).
Proof.
  split.
  - apply (proj1 (predict_data_appends_forecast 2024 [7.5; 8; 8.25; 9]%float _)).
    simpl. lia.
  - apply (proj2 (predict_data_appends_forecast 2024 [7.5; 8]%float _)).
    simpl. lia.
Defined.


(** ** Bounds on binary64 arithmetic

    The operations of primitive floats are specified by [SpecFloat]; the
    lemmas below bound the results of the rounding, the subtraction and
    the multiplication that [decimal_year_to_datetime] performs. *)

Section FloatBounds.

Local Open Scope Z_scope.

Lemma digits2_pos_bounds p :
  2 ^ (Z.pos (digits2_pos p) - 1) <= Z.pos p < 2 ^ Z.pos (digits2_pos p).
Proof.
  induction p as [p IH|p IH|]; cbn [digits2_pos].
  - rewrite Pos2Z.inj_succ.
    replace (Z.succ (Z.pos (digits2_pos p)) - 1) with (Z.succ (Z.pos (digits2_pos p) - 1)) by lia.
    rewrite !Z.pow_succ_r by lia. lia.
  - rewrite Pos2Z.inj_succ.
    replace (Z.succ (Z.pos (digits2_pos p)) - 1) with (Z.succ (Z.pos (digits2_pos p) - 1)) by lia.
    rewrite !Z.pow_succ_r by lia. lia.
  - cbn. lia.
Qed.

Lemma digits2_pos_le p j : Z.pos p < 2 ^ j -> Z.pos (digits2_pos p) <= j.
Proof.
  intros H. pose proof (digits2_pos_bounds p) as [Hlo _].
  destruct (Z.le_gt_cases (Z.pos (digits2_pos p)) j) as [|Hgt]; [assumption|exfalso].
  assert (0 <= j) by (destruct (Z.le_gt_cases 0 j); [assumption | rewrite Z.pow_neg_r in H by lia; lia]).
  assert (2 ^ j <= 2 ^ (Z.pos (digits2_pos p) - 1)) by (apply Z.pow_le_mono_r; lia).
  lia.
Qed.

Lemma iter_xO_value m d : Z.pos (Pos.iter xO m d) = Z.pos m * 2 ^ Z.pos d.
Proof.
  revert m. induction d using Pos.peano_ind; intros m.
  - cbn. lia.
  - rewrite Pos.iter_succ, Pos2Z.inj_succ, Z.pow_succ_r by lia.
    rewrite Pos2Z.inj_xO, IHd. lia.
Qed.

Lemma shr_1_m mrs : 0 <= shr_m mrs -> shr_m (shr_1 mrs) = shr_m mrs / 2.
Proof.
  destruct mrs as [m r s]. cbn [shr_m]. intros Hm.
  destruct m as [|[p|p|]|p]; cbn [shr_1 shr_m]; try reflexivity; try lia.
  - apply Z.div_unique with 1; lia.
  - apply Z.div_unique with 0; lia.
Qed.

Lemma pow2_xI p : 2 ^ Z.pos p~1 = 2 * 2 ^ Z.pos p * 2 ^ Z.pos p.
Proof.
  replace (Z.pos p~1) with (1 + Z.pos p + Z.pos p) by lia.
  rewrite !Z.pow_add_r by lia. lia.
Qed.

Lemma pow2_xO p : 2 ^ Z.pos p~0 = 2 ^ Z.pos p * 2 ^ Z.pos p.
Proof.
  replace (Z.pos p~0) with (Z.pos p + Z.pos p) by lia.
  now rewrite Z.pow_add_r by lia.
Qed.

Lemma iter_shr_1_m p : forall mrs,
  0 <= shr_m mrs -> shr_m (iter_pos shr_1 p mrs) = shr_m mrs / 2 ^ Z.pos p.
Proof.
  induction p as [p IH|p IH|]; intros mrs Hm; cbn [iter_pos].
  - assert (Hp : 0 < 2 ^ Z.pos p) by (apply Z.pow_pos_nonneg; lia).
    assert (H1 : 0 <= shr_m (shr_1 mrs)).
    { rewrite shr_1_m by assumption. apply Z.div_pos; lia. }
    assert (H2 : 0 <= shr_m (iter_pos shr_1 p (shr_1 mrs))).
    { rewrite IH by assumption. apply Z.div_pos; assumption. }
    rewrite IH, IH, shr_1_m by assumption.
    rewrite pow2_xI, !Z.div_div by lia. f_equal. lia.
  - assert (Hp : 0 < 2 ^ Z.pos p) by (apply Z.pow_pos_nonneg; lia).
    assert (H2 : 0 <= shr_m (iter_pos shr_1 p mrs)).
    { rewrite IH by assumption. apply Z.div_pos; assumption. }
    rewrite IH, IH by assumption.
    rewrite pow2_xO, !Z.div_div by lia. f_equal.
  - rewrite shr_1_m by assumption. reflexivity.
Qed.

Lemma shr_cases mrs e n :
  0 <= shr_m mrs ->
  (n <= 0 /\ shr mrs e n = (mrs, e))
  \/ (0 < n /\ snd (shr mrs e n) = e + n
      /\ shr_m (fst (shr mrs e n)) = shr_m mrs / 2 ^ n).
Proof.
  intros Hm. destruct n as [|p|p]; cbn [shr].
  - left. split; [lia | reflexivity].
  - right. cbn [fst snd]. split; [lia | split; [reflexivity|]].
    now apply iter_shr_1_m.
  - left. split; [lia | reflexivity].
Qed.

Lemma div_pow_bound a j n : 0 <= a <= 2 ^ j -> 0 <= n -> a / 2 ^ n <= 2 ^ (j - n).
Proof.
  intros [Ha Haj] Hn.
  assert (Hpn : 0 < 2 ^ n) by (apply Z.pow_pos_nonneg; lia).
  destruct (Z.lt_ge_cases j n) as [Hlt|Hge].
  - assert (a / 2 ^ n = 0).
    { destruct (Z.lt_ge_cases j 0) as [Hj|Hj].
      - rewrite Z.pow_neg_r in Haj by lia. assert (a = 0) by lia. subst a.
        apply Z.div_0_l. lia.
      - apply Z.div_small. split; [assumption|].
        assert (2 ^ j < 2 ^ n) by (apply Z.pow_lt_mono_r; lia). lia. }
    rewrite H. apply Z.pow_nonneg. lia.
  - replace (2 ^ j) with (2 ^ (j - n) * 2 ^ n) in Haj
      by (rewrite <- Z.pow_add_r by lia; f_equal; lia).
    apply Z.div_le_upper_bound; [assumption | lia].
Qed.

Lemma round_nearest_even_bounds m l :
  m <= round_nearest_even m l <= m + 1.
Proof.
  destruct l as [|[| |]]; cbn [round_nearest_even]; try lia.
  destruct (Z.even m); lia.
Qed.

Lemma binary_round_aux_bounded m e k :
  -1074 <= k <= 971 ->
  Z.pos m < 2 ^ (k - e) ->
  sf_bounded k (binary_round_aux prec emax false (Z.pos m) e loc_Exact).
Proof.
  intros Hk Hm.
  assert (Hke : 0 < k - e).
  { destruct (Z.lt_ge_cases 0 (k - e)) as [|H]; [assumption|].
    destruct (Z.eq_dec (k - e) 0) as [E|E].
    - rewrite E in Hm. cbn in Hm. lia.
    - rewrite Z.pow_neg_r in Hm by lia. lia. }
  pose proof (digits2_pos_le m (k - e) Hm) as Hd.
  unfold binary_round_aux, shr_fexp.
  cbn [Zdigits2 shr_record_of_loc].
  set (n1 := fexp prec emax (Z.pos (digits2_pos m) + e) - e).
  assert (Hfexp : fexp prec emax (Z.pos (digits2_pos m) + e) <= k).
  { unfold fexp, SpecFloat.emin, prec, emax. lia. }
  destruct (shr {| shr_m := Z.pos m; shr_r := false; shr_s := false |} e n1)
    as [mrs' e'] eqn:E1.
  assert (H1 : 0 <= shr_m mrs' /\ e' <= k
               /\ round_nearest_even (shr_m mrs') (loc_of_shr_record mrs')
                  <= 2 ^ (k - e')).
  { destruct (shr_cases {| shr_m := Z.pos m; shr_r := false; shr_s := false |}
                e n1) as [[Hn E]|[Hn [Es Em]]]; [cbn; lia | |].
    - rewrite E in E1. injection E1 as <- <-. cbn [shr_m loc_of_shr_record
        round_nearest_even]. repeat split; lia.
    - rewrite E1 in Es, Em. cbn [fst snd shr_m] in Es, Em. subst e'.
      assert (He' : e + n1 <= k) by (unfold n1; lia).
      assert (Hpn : 0 < 2 ^ n1) by (apply Z.pow_pos_nonneg; lia).
      assert (Hlt : shr_m mrs' < 2 ^ (k - (e + n1))).
      { rewrite Em. apply Z.div_lt_upper_bound; [assumption|].
        rewrite <- Z.pow_add_r by lia.
        replace (n1 + (k - (e + n1))) with (k - e) by lia. assumption. }
      assert (Hnn : 0 <= shr_m mrs').
      { rewrite Em. apply Z.div_pos; lia. }
      pose proof (round_nearest_even_bounds (shr_m mrs')
                    (loc_of_shr_record mrs')).
      repeat split; lia. }
  destruct H1 as [Hnn [He' Hm2]].
  set (m2 := round_nearest_even (shr_m mrs') (loc_of_shr_record mrs')) in *.
  assert (Hm2nn : 0 <= m2).
  { pose proof (round_nearest_even_bounds (shr_m mrs') (loc_of_shr_record mrs')).
    unfold m2. lia. }
  set (n2 := fexp prec emax (Zdigits2 m2 + e') - e').
  destruct (shr {| shr_m := m2; shr_r := false; shr_s := false |} e' n2)
    as [mrs'' e''] eqn:E2.
  assert (H2 : 0 <= shr_m mrs'' <= 2 ^ (k - e'')).
  { destruct (shr_cases {| shr_m := m2; shr_r := false; shr_s := false |}
                e' n2) as [[Hn E]|[Hn [Es Em]]]; [cbn; lia | |].
    - rewrite E in E2. injection E2 as <- <-. cbn [shr_m]. lia.
    - rewrite E2 in Es, Em. cbn [fst snd shr_m] in Es, Em. subst e''.
      rewrite Em. split.
      + apply Z.div_pos; [assumption | apply Z.pow_pos_nonneg; lia].
      + replace (k - (e' + n2)) with (k - e' - n2) by lia.
        apply div_pow_bound; lia. }
  destruct (shr_m mrs'') as [|m3|m3] eqn:E3; cbn [sf_bounded].
  - exact I.
  - assert (He'' : e'' <= k).
    { destruct (Z.le_gt_cases e'' k) as [|Hgt]; [assumption|].
      rewrite Z.pow_neg_r in H2 by lia. lia. }
    destruct (Z.leb_spec e'' (emax - prec)) as [_|Hgt];
      [|unfold emax, prec in Hgt; lia].
    cbn [sf_bounded]. lia.
  - lia.
Qed.

Lemma shl_align_value m e e' :
  e' <= e ->
  Z.pos (fst (shl_align m e e')) = Z.pos m * 2 ^ (e - e')
  /\ snd (shl_align m e e') = e'.
Proof.
  intros Hle. unfold shl_align.
  destruct (e' - e) as [|d|d] eqn:E; cbn [fst snd]; try lia.
  - replace (e - e') with 0 by lia. cbn. lia.
  - rewrite iter_xO_value. replace (e - e') with (Z.pos d) by lia. lia.
Qed.

Lemma binary_round_bounded m e k :
  -1074 <= k <= 971 ->
  Z.pos m < 2 ^ (k - e) ->
  sf_bounded k (binary_round prec emax false m e).
Proof.
  intros Hk Hm. unfold binary_round.
  set (e' := fexp prec emax (Z.pos (digits2_pos m) + e)).
  destruct (shl_align m e e') as [mz ez] eqn:E.
  apply binary_round_aux_bounded; [assumption|].
  unfold shl_align in E.
  destruct (e' - e) as [|d|d] eqn:Ed; injection E as <- <-; try assumption.
  rewrite iter_xO_value.
  assert (Hke : 0 < k - e).
  { destruct (Z.lt_ge_cases 0 (k - e)) as [|H]; [assumption|].
    destruct (Z.eq_dec (k - e) 0) as [E0|E0].
    - rewrite E0 in Hm. cbn in Hm. lia.
    - rewrite Z.pow_neg_r in Hm by lia. lia. }
  replace (k - e') with ((k - e) + Z.pos d) by lia.
  rewrite Z.pow_add_r by lia.
  assert (0 < 2 ^ Z.pos d) by (apply Z.pow_pos_nonneg; lia). nia.
Qed.

Lemma binary_normalize_bounded D e k :
  -1074 <= k <= 971 ->
  0 <= D < 2 ^ (k - e) ->
  sf_bounded k (binary_normalize prec emax D e false).
Proof.
  intros Hk [H0 HD]. destruct D as [|p|p]; cbn [binary_normalize].
  - exact I.
  - now apply binary_round_bounded.
  - lia.
Qed.

Lemma SFmul_bounded m1 e1 k1 f2 k2 :
  -1074 <= k1 + k2 <= 971 ->
  Z.pos m1 < 2 ^ (k1 - e1) ->
  sf_bounded k2 f2 ->
  sf_bounded (k1 + k2) (SFmul prec emax (S754_finite false m1 e1) f2).
Proof.
  intros Hk H1 H2. destruct f2 as [[|]|[|]| |[|] m2 e2]; cbn [sf_bounded] in H2;
    try contradiction; cbn [SFmul xorb].
  - exact I.
  - apply binary_round_aux_bounded; [assumption|].
    assert (Hk1 : 0 <= k1 - e1).
    { destruct (Z.le_gt_cases 0 (k1 - e1)); [assumption|].
      rewrite Z.pow_neg_r in H1 by lia. lia. }
    assert (Hk2 : 0 <= k2 - e2).
    { destruct (Z.le_gt_cases 0 (k2 - e2)); [assumption|].
      rewrite Z.pow_neg_r in H2 by lia. lia. }
    replace (k1 + k2 - (e1 + e2)) with ((k1 - e1) + (k2 - e2)) by lia.
    rewrite Z.pow_add_r by lia. rewrite Pos2Z.inj_mul. nia.
Qed.

Lemma digits2_pos_iter_xO m d :
  digits2_pos (Pos.iter xO m d) = (digits2_pos m + d)%positive.
Proof.
  induction d using Pos.peano_ind.
  - cbn. lia.
  - rewrite Pos.iter_succ. cbn [digits2_pos]. rewrite IHd. lia.
Qed.

Lemma binary_round_aux_canonical s m e :
  fexp prec emax (Z.pos (digits2_pos m) + e) = e ->
  e <= 971 ->
  binary_round_aux prec emax s (Z.pos m) e loc_Exact = S754_finite s m e.
Proof.
  intros Hc He. unfold binary_round_aux, shr_fexp.
  cbn [Zdigits2 shr_record_of_loc]. rewrite Hc, Z.sub_diag.
  cbn [shr shr_m loc_of_shr_record round_nearest_even Zdigits2
       shr_record_of_loc]. rewrite Hc, Z.sub_diag. cbn [shr shr_m].
  destruct (Z.leb_spec e (emax - prec)) as [_|H]; [reflexivity|].
  unfold emax, prec in H. lia.
Qed.

(** The float of a positive integer below [2 ^ 53] is that integer. *)
Lemma float_of_int_exact w :
  0 < w < 2 ^ 53 ->
  exists m e,
    Prim2SF (float_of_int w) = S754_finite false m e
    /\ e <= 0 /\ Z.pos m = w * 2 ^ (- e).
Proof.
  intros [H0 Hw]. destruct w as [|p|p]; try lia.
  pose proof (digits2_pos_le p 53 Hw) as Hd.
  pose proof (digits2_pos_bounds p) as Hb.
  set (d := Z.pos (digits2_pos p)) in *.
  assert (Hfexp : fexp prec emax (d + 0) = d - 53).
  { unfold fexp, SpecFloat.emin, prec, emax. lia. }
  pose proof (shl_align_value p 0 (d - 53) ltac:(lia)) as [Hv He].
  assert (Hdz : Z.pos (digits2_pos (fst (shl_align p 0 (d - 53)))) = 53).
  { unfold shl_align. destruct (d - 53 - 0) as [|k|k] eqn:Ek; cbn [fst].
    - fold d. lia.
    - lia.
    - rewrite digits2_pos_iter_xO, Pos2Z.inj_add. fold d. lia. }
  assert (Hsf : binary_normalize prec emax (Z.pos p) 0 false
                = S754_finite false (fst (shl_align p 0 (d - 53))) (d - 53)).
  { cbn [binary_normalize]. unfold binary_round. fold d. rewrite Hfexp.
    destruct (shl_align p 0 (d - 53)) as [mz ez].
    cbn [fst snd] in *. subst ez.
    apply binary_round_aux_canonical; [|lia].
    rewrite Hdz. unfold fexp, SpecFloat.emin, prec, emax. lia. }
  exists (fst (shl_align p 0 (d - 53))), (d - 53).
  split; [|split; [lia|]].
  - unfold float_of_int. rewrite Hsf. apply Prim2SF_SF2Prim.
    cbn [SpecFloat.valid_binary]. unfold bounded, canonical_mantissa.
    rewrite Hdz.
    apply andb_true_iff. split.
    + apply Z.eqb_eq. unfold fexp, SpecFloat.emin, prec, emax. lia.
    + apply Z.leb_le. unfold prec, emax. lia.
  - rewrite Hv. replace (0 - (d - 53)) with (- (d - 53)) by lia. reflexivity.
Qed.

Lemma sf_trunc_bounds m e k :
  Z.pos m <= 2 ^ (k - e) -> 0 <= sf_trunc m e <= 2 ^ k.
Proof.
  intros Hm. unfold sf_trunc.
  assert (Hke : 0 <= k - e).
  { destruct (Z.le_gt_cases 0 (k - e)); [assumption|].
    rewrite Z.pow_neg_r in Hm by lia. lia. }
  destruct (Z.leb_spec 0 e) as [He|He].
  - assert (0 < 2 ^ e) by (apply Z.pow_pos_nonneg; lia).
    replace (2 ^ k) with (2 ^ (k - e) * 2 ^ e)
      by (rewrite <- Z.pow_add_r by lia; f_equal; lia).
    split; nia.
  - split.
    + apply Z.div_pos; [lia | apply Z.pow_pos_nonneg; lia].
    + pose proof (div_pow_bound (Z.pos m) (k - e) (- e) ltac:(lia) ltac:(lia))
        as H.
      replace (k - e - - e) with k in H by lia. exact H.
Qed.

Lemma float_of_int_zero : Prim2SF (float_of_int 0) = S754_zero false.
Proof. reflexivity. Qed.

(** What is left of a positive float after its whole part is taken away
    lies in [[0, 1]]. *)
Lemma SFsub_trunc_bounded mx ex :
  sf_trunc mx ex < 2 ^ 53 ->
  sf_bounded 0
    (SFsub prec emax (S754_finite false mx ex)
       (Prim2SF (float_of_int (sf_trunc mx ex)))).
Proof.
  intros Hw.
  assert (Hw0 : 0 <= sf_trunc mx ex).
  { unfold sf_trunc. destruct (Z.leb_spec 0 ex).
    - apply Z.mul_nonneg_nonneg; [lia | apply Z.pow_nonneg; lia].
    - apply Z.div_pos; [lia | apply Z.pow_pos_nonneg; lia]. }
  destruct (Z.eq_dec (sf_trunc mx ex) 0) as [E0|Hne].
  - rewrite E0, float_of_int_zero. cbn [SFsub sf_bounded].
    unfold sf_trunc in E0. destruct (Z.leb_spec 0 ex) as [He|He].
    + assert (0 < 2 ^ ex) by (apply Z.pow_pos_nonneg; lia). nia.
    + assert (Hp : 0 < 2 ^ (- ex)) by (apply Z.pow_pos_nonneg; lia).
      replace (0 - ex) with (- ex) by lia.
      destruct (Z.le_gt_cases (Z.pos mx) (2 ^ (- ex))) as [|Hgt]; [assumption|].
      assert (1 <= Z.pos mx / 2 ^ (- ex)).
      { apply Z.div_le_lower_bound; lia. }
      lia.
  - destruct (float_of_int_exact (sf_trunc mx ex) ltac:(lia))
      as [my [ey [Hf [Hey Hmy]]]].
    rewrite Hf. cbn [SFsub cond_Zopp].
    set (ez := Z.min ex ey).
    pose proof (shl_align_value mx ex ez ltac:(unfold ez; lia)) as [Hx _].
    pose proof (shl_align_value my ey ez ltac:(unfold ez; lia)) as [Hy _].
    apply binary_normalize_bounded; [lia|].
    rewrite Hx, Hy, Hmy. replace (0 - ez) with (- ez) by lia.
    unfold sf_trunc. destruct (Z.leb_spec 0 ex) as [He|He].
    + assert (Hez : ez = ey) by (unfold ez; lia). rewrite Hez.
      replace (ey - ey) with 0 by lia. rewrite Z.pow_0_r.
      replace (ex - ey) with (ex + - ey) by lia.
      rewrite Z.pow_add_r by lia.
      assert (0 < 2 ^ (- ey)) by (apply Z.pow_pos_nonneg; lia).
      split; [lia|]. nia.
    + set (P := 2 ^ (- ex)).
      assert (HP : 0 < P) by (apply Z.pow_pos_nonneg; lia).
      pose proof (Z.div_mod (Z.pos mx) P ltac:(lia)) as Hdm.
      pose proof (Z.mod_pos_bound (Z.pos mx) P HP) as Hr.
      set (q := Z.pos mx / P) in *. set (r := Z.pos mx mod P) in *.
      assert (Hez : ez <= ex) by (unfold ez; lia).
      set (S := 2 ^ (ex - ez)).
      assert (HS : 0 < S) by (apply Z.pow_pos_nonneg; lia).
      assert (E1 : 2 ^ (- ey) * 2 ^ (ey - ez) = P * S).
      { unfold P, S. rewrite <- !Z.pow_add_r by (unfold ez; lia).
        f_equal. lia. }
      assert (E2 : 2 ^ (- ez) = P * S).
      { unfold P, S. rewrite <- !Z.pow_add_r by lia. f_equal. lia. }
      rewrite E2.
      replace (q * 2 ^ (- ey) * 2 ^ (ey - ez)) with (q * (P * S))
        by (rewrite <- E1; lia).
      rewrite Hdm. split; nia.
Qed.

Lemma round_half_even_bounds p k :
  0 <= k ->
  sf_bounded k (Prim2SF p) ->
  0 <= round_half_even p <= 2 ^ k + 1.
Proof.
  intros Hk Hb. unfold round_half_even.
  assert (Hpk : 0 < 2 ^ k) by (apply Z.pow_pos_nonneg; lia).
  destruct (Prim2SF p) as [[|]|[|]| |[|] m e]; cbn [sf_bounded] in Hb;
    try contradiction; try lia.
  pose proof (sf_trunc_bounds m e k Hb) as Ht. unfold sf_trunc in Ht.
  destruct (Z.leb_spec 0 e) as [He|He]; [lia|].
  destruct (2 * (Z.pos m mod 2 ^ (- e)) <? 2 ^ (- e)); [lia|].
  destruct (2 ^ (- e) <? 2 * (Z.pos m mod 2 ^ (- e))); [lia|].
  destruct (Z.even (Z.pos m / 2 ^ (- e))); lia.
Qed.

Lemma int_of_float_bounded x k :
  sf_bounded k (Prim2SF x) ->
  exists w, int_of_float x = Ok w /\ 0 <= w <= 2 ^ k
            /\ (w < 2 ^ 53 -> sf_bounded 0 (Prim2SF (x - float_of_int w)%float)).
Proof.
  intros Hb. unfold int_of_float.
  destruct (Prim2SF x) as [[|]|[|]| |[|] m e] eqn:E; cbn [sf_bounded] in Hb;
    try contradiction.
  - exists 0. split; [reflexivity|]. split.
    + split; [lia | apply Z.pow_nonneg; lia].
    + intros _. rewrite sub_spec. unfold SF64sub.
      rewrite E, float_of_int_zero. exact I.
  - exists (sf_trunc m e). split; [reflexivity|]. split.
    + now apply sf_trunc_bounds.
    + intros Hw. rewrite sub_spec. unfold SF64sub.
      rewrite E. now apply SFsub_trunc_bounded.
Qed.

Lemma million_SF :
  Prim2SF 1000000%float = S754_finite false 8589934592000000 (-33).
Proof. reflexivity. Qed.

(** [timedelta(seconds=s)] returns for every [s] in [[0, 2^25]]. *)
Lemma timedelta_of_seconds_bounded s :
  sf_bounded 25 (Prim2SF s) ->
  exists us, timedelta_of_seconds s = Ok us
             /\ 0 <= us <= 2 ^ 25 * 1000000 + 2 ^ 20 + 1.
Proof.
  intros Hb. unfold timedelta_of_seconds.
  destruct (int_of_float_bounded s 25 Hb) as [w [Hw [Hwb Hfrac]]].
  rewrite Hw. cbn [bind].
  assert (Hf : sf_bounded 0 (Prim2SF (s - float_of_int w)%float)).
  { apply Hfrac. change (2 ^ 53) with 9007199254740992.
    change (2 ^ 25) with 33554432 in Hwb. lia. }
  assert (Hp : sf_bounded 20 (Prim2SF (1000000 * (s - float_of_int w))%float)).
  { rewrite mul_spec, million_SF. unfold SF64mul.
    apply (SFmul_bounded _ _ 20 _ 0); [lia | reflexivity | assumption]. }
  pose proof (round_half_even_bounds _ 20 ltac:(lia) Hp) as Hr.
  set (r := round_half_even (1000000 * (s - float_of_int w))%float) in *.
  change (2 ^ 25) with 33554432 in *. change (2 ^ 20) with 1048576 in *.
  unfold us_per_day, us_per_second.
  destruct (Z.ltb_spec (w * 1000000 + r) (- 999999999 * (86400 * 1000000)));
    [lia|].
  destruct (Z.leb_spec (1000000000 * (86400 * 1000000)) (w * 1000000 + r));
    [lia|].
  cbn [orb]. exists (w * 1000000 + r). split; [reflexivity | lia].
Qed.

End FloatBounds.

(** ** The date conversion *)

Section DateFacts.

Local Open Scope Z_scope.

(** The calendar and duration model on known values of Python's
    [datetime]. *)
Example fromordinal_samples :
  fromordinal 1 = mkdate 1 1 1
  /\ fromordinal 730120 = mkdate 2000 1 1
  /\ fromordinal (toordinal (mkdate 2000 2 29)) = mkdate 2000 2 29
  /\ fromordinal (toordinal (mkdate 1900 2 28) + 1) = mkdate 1900 3 1
  /\ fromordinal (toordinal (mkdate 2003 12 31) + 1) = mkdate 2004 1 1
  /\ fromordinal MAXORDINAL = mkdate 9999 12 31.
Proof. repeat split; reflexivity. Qed.

Example timedelta_of_seconds_samples :
  timedelta_of_seconds 1.5 = Ok 1500000
  /\ timedelta_of_seconds (-1.25) = Ok (-1250000)
  /\ timedelta_of_seconds 15768000 = Ok (182 * us_per_day + us_per_day / 2)
  /\ timedelta_of_seconds infinity = Err OverflowError
  /\ timedelta_of_seconds nan = Err ValueError.
Proof. repeat split; reflexivity. Qed.

Example decimal_year_to_datetime_errors :
  decimal_year_to_datetime 0.5 = Err ValueError
  /\ decimal_year_to_datetime 9999.5 = Err ValueError
  /\ decimal_year_to_datetime nan = Err ValueError
  /\ decimal_year_to_datetime infinity = Err OverflowError.
Proof. repeat split; reflexivity. Qed.

Lemma year_length y :
  days_before_year (y + 1) - days_before_year y
  = if is_leap y then 366 else 365.
Proof.
  unfold days_before_year, is_leap.
  replace (y + 1 - 1) with y by lia.
  destruct (Z.eqb_spec (y mod 4) 0) as [H4|H4];
    destruct (Z.eqb_spec (y mod 100) 0) as [H100|H100];
    destruct (Z.eqb_spec (y mod 400) 0) as [H400|H400];
    cbn [andb orb negb];
    Z.to_euclidean_division_equations; lia.
Qed.

Lemma toordinal_january_first y : toordinal (mkdate y 1 1) = days_before_year y + 1.
Proof. unfold toordinal. cbn. lia. Qed.

Lemma check_date_fields_ok y m d dd :
  check_date_fields y m d = Ok dd ->
  dd = mkdate y m d /\ MINYEAR <= y <= MAXYEAR.
Proof.
  unfold check_date_fields.
  destruct ((y <? - 2 ^ 31) || (2 ^ 31 <=? y)); [discriminate|].
  destruct (Z.ltb_spec y MINYEAR); [discriminate|].
  destruct (Z.ltb_spec MAXYEAR y); [discriminate|]. cbn [orb].
  destruct ((m <? 1) || (12 <? m)); [discriminate|].
  destruct ((d <? 1) || (days_in_month y m <? d)); [discriminate|].
  intros [= <-]. split; [reflexivity | lia].
Qed.

Lemma year_total_seconds days :
  days = 365 \/ days = 366 ->
  total_seconds (days * us_per_day) = float_of_int (days * 86400).
Proof. intros [->| ->]; reflexivity. Qed.

Lemma year_duration y :
  datetime_sub (mkdatetime (mkdate (y + 1) 1 1) 0) (mkdatetime (mkdate y 1 1) 0)
  = (toordinal (mkdate (y + 1) 1 1) - toordinal (mkdate y 1 1)) * us_per_day.
Proof.
  unfold datetime_sub, to_microseconds, timedelta. cbn [date_of time_of]. ring.
Qed.

Lemma year_days y :
  toordinal (mkdate (y + 1) 1 1) - toordinal (mkdate y 1 1) = 365
  \/ toordinal (mkdate (y + 1) 1 1) - toordinal (mkdate y 1 1) = 366.
Proof.
  rewrite !toordinal_january_first.
  pose proof (year_length y) as H. destruct (is_leap y); lia.
Qed.

Lemma days_in_month_bounds y m : 28 <= days_in_month y m <= 31.
Proof.
  unfold days_in_month.
  destruct (m =? 2); [destruct (is_leap y); lia|].
  destruct ((m =? 4) || (m =? 6) || (m =? 9) || (m =? 11)); lia.
Qed.

Lemma check_date_fields_in_range y m d :
  1 <= y <= 9999 -> 1 <= m <= 12 -> 1 <= d <= 28 ->
  check_date_fields y m d = Ok (mkdate y m d).
Proof.
  intros Hy Hm Hd. unfold check_date_fields, MINYEAR, MAXYEAR.
  pose proof (days_in_month_bounds y m).
  change (- 2 ^ 31) with (-2147483648). change (2 ^ 31) with 2147483648.
  destruct (Z.ltb_spec y (-2147483648)); [lia|].
  destruct (Z.leb_spec 2147483648 y); [lia|]. cbn [orb].
  destruct (Z.ltb_spec y 1); [lia|].
  destruct (Z.ltb_spec 9999 y); [lia|]. cbn [orb].
  destruct (Z.ltb_spec m 1); [lia|].
  destruct (Z.ltb_spec 12 m); [lia|]. cbn [orb].
  destruct (Z.ltb_spec d 1); [lia|].
  destruct (Z.ltb_spec (days_in_month y m) d); [lia|]. reflexivity.
Qed.

Lemma month_day_bounds y fuel : forall m n,
  1 <= m -> m + Z.of_nat fuel <= 12 ->
  1 <= fst (month_day y fuel m n) <= 12.
Proof.
  induction fuel as [|fuel IH]; intros m n H1 H12; cbn [month_day].
  - cbn [fst]. lia.
  - destruct (n <? days_in_month y m); [cbn [fst]; lia|].
    apply IH; lia.
Qed.

Lemma fromordinal_valid n :
  1 <= n <= MAXORDINAL ->
  1 <= year (fromordinal n) <= 9999 /\ 1 <= month (fromordinal n) <= 12.
Proof.
  unfold MAXORDINAL, fromordinal. intros Hn.
  set (n0 := n - 1).
  set (n400 := n0 / 146097). set (r400 := n0 mod 146097).
  set (n100 := r400 / 36524). set (r100 := r400 mod 36524).
  set (n4 := r100 / 1461). set (r4 := r100 mod 1461).
  set (n1 := r4 / 365). set (r1 := r4 mod 365).
  assert (Hy : 0 <= n400 * 400 + n100 * 100 + n4 * 4 + n1 <= 9998
               /\ ((n1 =? 4) || (n100 =? 4) = true ->
                   1 <= n400 * 400 + n100 * 100 + n4 * 4 + n1)).
  { assert (n0 = n - 1) by reflexivity. clearbody n0.
    assert (E400 : n0 = 146097 * n400 + r400 /\ 0 <= r400 < 146097).
    { split; [apply Z.div_mod; lia | apply Z.mod_pos_bound; lia]. }
    assert (E100 : r400 = 36524 * n100 + r100 /\ 0 <= r100 < 36524).
    { split; [apply Z.div_mod; lia | apply Z.mod_pos_bound; lia]. }
    assert (E4 : r100 = 1461 * n4 + r4 /\ 0 <= r4 < 1461).
    { split; [apply Z.div_mod; lia | apply Z.mod_pos_bound; lia]. }
    assert (E1 : r4 = 365 * n1 + r1 /\ 0 <= r1 < 365).
    { split; [apply Z.div_mod; lia | apply Z.mod_pos_bound; lia]. }
    clearbody n400 r400 n100 r100 n4 r4 n1 r1.
    split; [lia|].
    intros Hc. apply orb_true_iff in Hc. rewrite !Z.eqb_eq in Hc. lia. }
  destruct Hy as [Hy Hlast].
  destruct ((n1 =? 4) || (n100 =? 4)) eqn:Hc; cbn [year month].
  - specialize (Hlast eq_refl). lia.
  - split; [lia|]. apply month_day_bounds; lia.
Qed.

Lemma days_before_year_bounds y :
  1 <= y <= 9998 -> 0 <= days_before_year y <= 3651329.
Proof.
  intros Hy. unfold days_before_year.
  assert (E4 : y - 1 = 4 * ((y - 1) / 4) + (y - 1) mod 4
               /\ 0 <= (y - 1) mod 4 < 4)
    by (split; [apply Z.div_mod; lia | apply Z.mod_pos_bound; lia]).
  assert (E100 : y - 1 = 100 * ((y - 1) / 100) + (y - 1) mod 100
                 /\ 0 <= (y - 1) mod 100 < 100)
    by (split; [apply Z.div_mod; lia | apply Z.mod_pos_bound; lia]).
  assert (E400 : y - 1 = 400 * ((y - 1) / 400) + (y - 1) mod 400
                 /\ 0 <= (y - 1) mod 400 < 400)
    by (split; [apply Z.div_mod; lia | apply Z.mod_pos_bound; lia]).
  lia.
Qed.

Lemma int_of_float_positive x y :
  int_of_float x = Ok y -> 1 <= y ->
  exists m e, Prim2SF x = S754_finite false m e /\ y = sf_trunc m e.
Proof.
  unfold int_of_float. intros H Hy.
  destruct (Prim2SF x) as [s|s| |s m e]; try discriminate.
  - injection H as <-. lia.
  - assert (Ha : 0 <= sf_trunc m e).
    { unfold sf_trunc. destruct (Z.leb_spec 0 e).
      - apply Z.mul_nonneg_nonneg; [lia | apply Z.pow_nonneg; lia].
      - apply Z.div_pos; [lia | apply Z.pow_pos_nonneg; lia]. }
    fold (sf_trunc m e) in H. destruct s; injection H as <-; [lia|].
    exists m, e. split; reflexivity.
Qed.

(** The remainder [start - year] lies in [[0, 1]]. *)
Lemma remainder_bounded x y :
  int_of_float x = Ok y -> 1 <= y <= 9998 ->
  sf_bounded 0 (Prim2SF (x - float_of_int y)%float).
Proof.
  intros H Hy.
  destruct (int_of_float_positive x y H ltac:(lia)) as [m [e [E ->]]].
  rewrite sub_spec. unfold SF64sub. rewrite E.
  apply SFsub_trunc_bounded. change (2 ^ 53) with 9007199254740992. lia.
Qed.

(** The offset in seconds lies in [[0, 2^25]]. *)
Lemma offset_seconds_bounded days rem :
  days = 365 \/ days = 366 ->
  sf_bounded 0 (Prim2SF rem) ->
  sf_bounded 25 (Prim2SF (float_of_int (days * 86400) * rem)%float).
Proof.
  intros Hd Hrem. rewrite mul_spec. unfold SF64mul.
  destruct Hd as [-> | ->].
  - change (Prim2SF (float_of_int (365 * 86400)))
      with (S754_finite false 8465380540416000 (-28)).
    apply (SFmul_bounded _ _ 25 _ 0); [lia | reflexivity | assumption].
  - change (Prim2SF (float_of_int (366 * 86400)))
      with (S754_finite false 8488573363814400 (-28)).
    apply (SFmul_bounded _ _ 25 _ 0); [lia | reflexivity | assumption].
Qed.

Lemma datetime_add_january_first y us :
  1 <= y <= 9998 ->
  0 <= us <= 2 ^ 25 * 1000000 + 2 ^ 20 + 1 ->
  exists result,
    datetime_add (mkdatetime (mkdate y 1 1) 0) us = Ok result
    /\ 1 <= year (date_of result) <= 9999
    /\ 1 <= month (date_of result) <= 12.
Proof.
  intros Hy Hus. unfold datetime_add, to_microseconds.
  cbn [date_of time_of]. rewrite toordinal_january_first.
  pose proof (days_before_year_bounds y Hy) as Hb.
  change (2 ^ 25) with 33554432 in Hus. change (2 ^ 20) with 1048576 in Hus.
  unfold us_per_day, us_per_second, MAXORDINAL.
  set (total := (days_before_year y + 1) * (86400 * 1000000) + 0 + us).
  assert (Hdays : 1 <= total / (86400 * 1000000) <= 3652059).
  { split.
    - apply Z.div_le_lower_bound; unfold total; lia.
    - assert (total / (86400 * 1000000) < 3652060); [|lia].
      apply Z.div_lt_upper_bound; unfold total; lia. }
  destruct (Z.ltb_spec 0 (total / (86400 * 1000000))); [|lia].
  destruct (Z.leb_spec (total / (86400 * 1000000)) 3652059); [|lia].
  cbn [andb]. eexists. split; [reflexivity|]. cbn [date_of].
  apply fromordinal_valid. unfold MAXORDINAL. lia.
Qed.

(** [decimal_year_to_datetime] returns on every float whose whole part is a
    year from 1 to 9998. *)
Lemma decimal_year_to_datetime_returns x y :
  int_of_float x = Ok y -> 1 <= y <= 9998 ->
  exists d, decimal_year_to_datetime x = Ok d.
Proof.
  intros Hx Hy. unfold decimal_year_to_datetime. rewrite Hx. cbn [bind].
  unfold datetime_new.
  rewrite (check_date_fields_in_range y 1 1) by lia.
  cbn [bind date_of time_of year month day].
  unfold datetime_replace_year. cbn [date_of time_of year month day].
  rewrite (check_date_fields_in_range (y + 1) 1 1) by lia. cbn [bind].
  rewrite year_duration, (year_total_seconds _ (year_days y)).
  pose proof (offset_seconds_bounded _ _ (year_days y)
                (remainder_bounded x y Hx Hy)) as Hs.
  destruct (timedelta_of_seconds_bounded _ Hs) as [us [Hus Hb]].
  rewrite Hus. cbn [bind].
  destruct (datetime_add_january_first y us Hy Hb) as [result [Hr [Hyr Hm]]].
  rewrite Hr. cbn [bind]. unfold date_replace_day.
  rewrite check_date_fields_in_range by lia. eauto.
Qed.

(** The steps of a call that returns. *)
Lemma decimal_year_to_datetime_steps x d :
  decimal_year_to_datetime x = Ok d ->
  exists y days offset result,
    int_of_float x = Ok y
    /\ days = toordinal (mkdate (y + 1) 1 1) - toordinal (mkdate y 1 1)
    /\ (days = 365 \/ days = 366)
    /\ timedelta_of_seconds
         (float_of_int (days * 86400) * (x - float_of_int y))%float
       = Ok offset
    /\ datetime_add (mkdatetime (mkdate y 1 1) 0) offset = Ok result
    /\ d = mkdate (year (date_of result)) (month (date_of result)) 1
    /\ day d = 1.
Proof.
  intros H. unfold decimal_year_to_datetime in H.
  destruct (int_of_float x) as [y|] eqn:Hy; [|discriminate]. cbn [bind] in H.
  unfold datetime_new in H.
  destruct (check_date_fields y 1 1) as [dd|] eqn:Hbase; [|discriminate].
  apply check_date_fields_ok in Hbase as [-> _].
  cbn [bind date_of time_of year month day] in H.
  unfold datetime_replace_year in H. cbn [date_of time_of year month day] in H.
  destruct (check_date_fields (y + 1) 1 1) as [dd|] eqn:Hnext; [|discriminate].
  apply check_date_fields_ok in Hnext as [-> _]. cbn [bind] in H.
  rewrite year_duration in H.
  rewrite (year_total_seconds _ (year_days y)) in H.
  destruct (timedelta_of_seconds _) as [offset|] eqn:Hoffset; [|discriminate].
  cbn [bind] in H.
  destruct (datetime_add _ offset) as [result|] eqn:Hresult; [|discriminate].
  cbn [bind] in H. unfold date_replace_day in H.
  apply check_date_fields_ok in H as [-> _].
  exists y, (toordinal (mkdate (y + 1) 1 1) - toordinal (mkdate y 1 1)),
    offset, result.
  repeat split; auto. apply year_days.
Qed.

(** C8: for every input whose whole part [y] is a year from 1 to 9998,
    [decimal_year_to_datetime] returns: it splits the input into [y] and the
    remainder, scales the remainder by the length of year [y] (from January
    1 of [y] to January 1 of [y + 1], 365 or 366 days), adds that offset to
    January 1 of [y] and returns the first day of the month reached. Every
    date it returns, on any input, is obtained so and has day 1; 2003.0
    gives 2003-01-01 and 2003.5 gives 2003-07-01. *)
Theorem decimal_year_to_datetime_first_of_month :
  (forall x y,
      int_of_float x = Ok y ->
      1 <= y <= 9998 ->
      exists days offset result,
        days = toordinal (mkdate (y + 1) 1 1) - toordinal (mkdate y 1 1)
        /\ (days = 365 \/ days = 366)
        /\ timedelta_of_seconds
             (float_of_int (days * 86400) * (x - float_of_int y))%float
           = Ok offset
        /\ datetime_add (mkdatetime (mkdate y 1 1) 0) offset = Ok result
        /\ decimal_year_to_datetime x
           = Ok (mkdate (year (date_of result)) (month (date_of result)) 1))
  /\ (forall x d,
      decimal_year_to_datetime x = Ok d ->
      exists y days offset result,
        int_of_float x = Ok y
        /\ days = toordinal (mkdate (y + 1) 1 1) - toordinal (mkdate y 1 1)
        /\ (days = 365 \/ days = 366)
        /\ timedelta_of_seconds
             (float_of_int (days * 86400) * (x - float_of_int y))%float
           = Ok offset
        /\ datetime_add (mkdatetime (mkdate y 1 1) 0) offset = Ok result
        /\ d = mkdate (year (date_of result)) (month (date_of result)) 1
        /\ day d = 1)
  /\ decimal_year_to_datetime 2003%float = Ok (mkdate 2003 1 1)
  /\ decimal_year_to_datetime 2003.5%float = Ok (mkdate 2003 7 1).
Proof.
  split; [|split; [|split; reflexivity]].
  - intros x y Hx Hy.
    destruct (decimal_year_to_datetime_returns x y Hx Hy) as [d Hd].
    destruct (decimal_year_to_datetime_steps x d Hd)
      as [y' [days [offset [result [Hx' [Hdays [H365 [Hoff [Hadd [-> _]]]]]]]]]].
    rewrite Hx in Hx'. injection Hx' as <-.
    exists days, offset, result. repeat split; assumption.
  - exact decimal_year_to_datetime_steps.
Qed.

Lemma decimal_year_to_datetime_first_of_month_witness :
  exists days offset result,
    days = toordinal (mkdate (2020 + 1) 1 1) - toordinal (mkdate 2020 1 1)
    /\ (days = 365 \/ days = 366)
    /\ timedelta_of_seconds
         (float_of_int (days * 86400) * (2020.25 - float_of_int 2020))%float
       = Ok offset
    /\ datetime_add (mkdatetime (mkdate 2020 1 1) 0) offset = Ok result
    /\ decimal_year_to_datetime 2020.25%float
       = Ok (mkdate (year (date_of result)) (month (date_of result)) 1).
Proof.
  apply (proj1 decimal_year_to_datetime_first_of_month 2020.25%float 2020).
  - reflexivity.
  - lia.
Defined.

(** Inputs of the years the data covers and beyond. *)
Example decimal_year_to_datetime_samples :
  decimal_year_to_datetime 2020.25%float = Ok (mkdate 2020 4 1)
  /\ decimal_year_to_datetime 1992.5%float = Ok (mkdate 1992 7 1)
  /\ decimal_year_to_datetime 1%float = Ok (mkdate 1 1 1)
  /\ decimal_year_to_datetime 9998.75%float = Ok (mkdate 9998 10 1).
Proof. repeat split; reflexivity. Qed.

End DateFacts.

(** * Further properties of the code *)

(** ** The value and the position of every year *)

Lemma remove_dupes_get_same year new_data mean :
  dict_get (remove_dupes year new_data mean) year
  = average_step (dict_get new_data year) mean.
Proof.
  unfold remove_dupes, average_step.
  destruct (dict_get new_data year); apply dict_get_set_same.
Qed.

Lemma merge_years_once obs year years : forall new_data,
  NoDup years ->
  In year years ->
  dict_get (fold_left (merge_year obs) years new_data) year
  = average_step (dict_get new_data year)
      (arithmetic_mean (map snd (in_year year obs))).
Proof.
  induction years as [|y years IH]; intros new_data Hnd Hin.
  - contradiction.
  - inversion_clear Hnd as [|? ? Hy Hnd']. cbn [fold_left].
    destruct (String.eqb_spec y year) as [->|Hne].
    + rewrite merge_years_other by assumption.
      apply remove_dupes_get_same.
    + destruct Hin as [E|Hin]; [contradiction|].
      rewrite IH by assumption. unfold merge_year.
      now rewrite remove_dupes_other by congruence.
Qed.

Lemma merge_source_get new_data obs year :
  dict_get (merge_source new_data obs) year
  = fold_left average_step
      match in_year year obs with
      | [] => []
      | pairs => [arithmetic_mean (map snd pairs)]
      end
      (dict_get new_data year).
Proof.
  unfold merge_source.
  destruct (in_year year obs) as [|p pairs] eqn:E.
  - apply merge_years_other. rewrite years_of_in_year. now intros H.
  - rewrite <- E. apply merge_years_once.
    + apply years_of_NoDup.
    + apply years_of_in_year. congruence.
Qed.

Lemma merge_sources_get data year keys : forall new_data,
  dict_get (merge_sources data keys new_data) year
  = fold_left average_step
      (flat_map
         (fun satellite =>
            match in_year year (obs_of data satellite) with
            | [] => []
            | pairs => [arithmetic_mean (map snd pairs)]
            end) keys)
      (dict_get new_data year).
Proof.
  induction keys as [|k keys IH]; intros new_data.
  - reflexivity.
  - rewrite merge_sources_cons, IH, merge_source_get.
    cbn [flat_map]. now rewrite fold_left_app.
Qed.

(** X1: for every dataset and year, the value [group_means] returns for the
    year is the running pairwise average of the means of the sources that
    have an observation in that year, taken in the order of the dataset's
    keys; the year is absent when no source has one. *)
Theorem group_means_value_is_running_average :
  forall (data : SourceDataset) (year : string),
  exists means,
    group_means data = Ok means
    /\ dict_get means year = running_average (contributions data year).
Proof.
  intros data year. eexists. split; [apply group_means_ok|].
  apply merge_sources_get.
Qed.






(** ** The order of [str] *)









(** ** The reader: what it looks at, and its composition with the
    aggregator *)

Section ReaderMore.

Variable py_float : string -> option float.

Lemma read_row_firstn d row :
  read_row py_float d (firstn 5 row) = read_row py_float d row.
Proof.
  destruct row as [|c0 [|c1 [|c2 [|c3 [|c4 rest]]]]]; reflexivity.
Qed.

Lemma read_rows_firstn rows : forall d,
  read_rows py_float (map (firstn 5) rows) d = read_rows py_float rows d.
Proof.
  induction rows as [|row rows IH]; intros d; cbn [map read_rows].
  - reflexivity.
  - rewrite read_row_firstn. destruct (read_row py_float d row); cbn [bind]; auto.
Qed.

(** X4: [read_csv_data] looks only at the first five columns of the rows
    after the sixth: two files whose preambles both have 6 rows and whose
    data rows agree on columns 0 to 4 give the same result or the same
    error, whatever the preamble rows and the further columns hold. *)
Theorem read_csv_data_ignores_preamble_and_extra_columns :
  forall preamble preamble' rows,
    List.length preamble = 6 ->
    List.length preamble' = 6 ->
    read_csv_data py_float (preamble' ++ map (firstn 5) rows)
    = read_csv_data py_float (preamble ++ rows).
Proof.
  intros preamble preamble' rows Hlen Hlen'. unfold read_csv_data.
  rewrite !skip_rows_skipn by (rewrite length_app; lia).
  rewrite <- Hlen at 2. rewrite <- Hlen'. rewrite !skipn_preamble.
  cbn [bind]. apply read_rows_firstn.
Qed.

Lemma column_observations_intro i rows row c label value :
  In row rows ->
  nth_error row i = Some c ->
  c <> "" ->
  py_float c = Some value ->
  nth_error row 0 = Some label ->
  In (label, value) (column_observations py_float i rows).
Proof.
  intros Hrow Hc Hne Hv Hl. unfold column_observations.
  apply in_flat_map. exists row. split; [assumption|].
  unfold row_observation. rewrite Hc, Hl.
  destruct (String.eqb_spec c ""); [contradiction|].
  rewrite Hv. now left.
Qed.

Lemma row_ok_cell row i c :
  row_ok py_float row ->
  1 <= i <= 4 ->
  nth_error row i = Some c ->
  c <> "" ->
  exists value, py_float c = Some value.
Proof.
  intros [_ [H1 [H2 [H3 H4]]]] Hi Hc Hne.
  assert (Hcell : cell_ok py_float row i).
  { destruct i as [|[|[|[|[|i]]]]]; try lia; assumption. }
  specialize (Hcell c Hc Hne).
  destruct (py_float c) as [value|]; [eauto | congruence].
Qed.

(** X5: on a well-formed file the reader and the aggregator compose without
    error, and the years of the resulting mapping are exactly the
    four-character prefixes of the time-labels of the data rows that hold a
    non-empty value in one of the columns 1 to 4. *)
Theorem group_means_of_read_csv_data :
  forall preamble rows,
    List.length preamble = 6 ->
    Forall (row_ok py_float) rows ->
    exists data means,
      read_csv_data py_float (preamble ++ rows) = Ok data
      /\ group_means data = Ok means
      /\ forall year,
          In year (dict_keys means)
          <-> exists row i c label,
              In row rows /\ 1 <= i <= 4
              /\ nth_error row i = Some c /\ c <> ""
              /\ nth_error row 0 = Some label
              /\ substring 0 4 label = year.
Proof.
  intros preamble rows Hlen Hok.
  eexists. eexists. split; [|split; [apply group_means_ok|]].
  - unfold read_csv_data.
    rewrite skip_rows_skipn by (rewrite length_app; lia). cbn [bind].
    rewrite <- Hlen, skipn_preamble. unfold data_sea_level_init.
    rewrite read_rows_ok by assumption. reflexivity.
  - intros year. rewrite merge_sources_keys. cbn [app dict_keys map fst dataset4].
    split.
    + intros [[satellite [Hs Hy]]|[]].
      assert (Hcol : exists i, 1 <= i <= 4
                /\ obs_of (dataset4 (column_observations py_float 1 rows)
                                    (column_observations py_float 2 rows)
                                    (column_observations py_float 3 rows)
                                    (column_observations py_float 4 rows))
                          satellite
                   = column_observations py_float i rows).
      { destruct Hs as [<-|[<-|[<-|[<-|[]]]]];
          [exists 1|exists 2|exists 3|exists 4]; split; try lia; reflexivity. }
      destruct Hcol as [i [Hi Hobs]]. rewrite Hobs in Hy.
      apply years_of_In in Hy. destruct Hy as [[label value] [Hin Hyear]].
      apply column_observations_In in Hin.
      destruct Hin as [row [c [Hrow [Hc [Hne [_ Hl]]]]]].
      unfold year_of in Hyear. cbn [fst] in Hyear.
      exists row, i, c, label. repeat split; try assumption; lia.
    + intros [row [i [c [label [Hrow [Hi [Hc [Hne [Hl Hyear]]]]]]]]].
      rewrite Forall_forall in Hok.
      destruct (row_ok_cell row i c (Hok row Hrow) Hi Hc Hne) as [value Hv].
      pose proof (column_observations_intro i rows row c label value
                    Hrow Hc Hne Hv Hl) as Hin.
      left.
      assert (Hy : In year (years_of (column_observations py_float i rows))).
      { apply years_of_In. exists (label, value). auto. }
      destruct i as [|[|[|[|[|i]]]]]; try lia;
        [exists "topex_pos"|exists "jason-1"|exists "jason-2"|exists "jason-3"];
        (split; [simpl; tauto | exact Hy]).
Qed.

End ReaderMore.

Lemma read_csv_data_ignores_preamble_and_extra_columns_witness :
  read_csv_data example_float
    ([["a"]; ["b"]; ["c"]; ["d"]; ["e"]; ["f"]]
       ++ map (firstn 5) [["1993.0411"; "10.0"; ""; ""; ""; "note"; "more"]])
  = read_csv_data example_float
      ([["Sea level"]; ["Vancouver"]; []; ["mm"]; ["#"];
        ["year"; "topex_pos"; "jason-1"; "jason-2"; "jason-3"]]
         ++ [["1993.0411"; "10.0"; ""; ""; ""; "note"; "more"]]).
Proof.
  apply (read_csv_data_ignores_preamble_and_extra_columns example_float);
    reflexivity.
Defined.

Lemma group_means_of_read_csv_data_witness :
  exists data means,
    read_csv_data example_float
      ([["Sea level"]; ["Vancouver"]; []; ["mm"]; ["#"];
        ["year"; "topex_pos"; "jason-1"; "jason-2"; "jason-3"]]
         ++ [["1993.0411"; "10.0"; ""; ""; ""];
             ["2002.5"; "20.0"; "-3.5"; ""; ""]])
    = Ok data
    /\ group_means data = Ok means
    /\ forall year,
        In year (dict_keys means)
        <-> exists row i c label,
            In row [["1993.0411"; "10.0"; ""; ""; ""];
                    ["2002.5"; "20.0"; "-3.5"; ""; ""]]
            /\ 1 <= i <= 4
            /\ nth_error row i = Some c /\ c <> ""
            /\ nth_error row 0 = Some label
            /\ substring 0 4 label = year.
Proof.
  apply (group_means_of_read_csv_data example_float).
  - reflexivity.
  - repeat constructor; simpl; try lia;
      intros c [= <-] Hne; solve [discriminate | now contradiction Hne].
Defined.

(** ** The writer of the annual means *)

Section WriterMore.

Context {V : Type}.

Lemma combine_app_surplus {A B : Type} (l : list A) : forall (p extra : list B),
  List.length l <= List.length p -> combine l (p ++ extra) = combine l p.
Proof.
  induction l as [|a l IH]; intros [|b p] extra Hlen; simpl in *;
    try reflexivity; try lia.
  f_equal. apply IH. lia.
Qed.

(** X6: [predict_data] appends nothing and returns when
    [end_year_exclusive <= 2021], whatever the predicted values are, the
    empty sequence included; and predicted values beyond the first
    [end_year_exclusive - 2021] are never read. *)
Theorem predict_data_reads_only_the_years_needed :
  (forall (end_year_exclusive : Z) (predicted : list V) (file : csv_file V),
      (end_year_exclusive <= 2021)%Z ->
      predict_data (end_year_exclusive, predicted) file = (file, Ok tt))
  /\ (forall (end_year_exclusive : Z) (predicted surplus : list V)
             (file : csv_file V),
      (end_year_exclusive - 2021 <= Z.of_nat (List.length predicted))%Z ->
      predict_data (end_year_exclusive, predicted ++ surplus) file
      = predict_data (end_year_exclusive, predicted) file).
Proof.
  split.
  - intros e predicted file Hle. rewrite predict_data_spec.
    unfold forecast_rows, range.
    replace (Z.to_nat (e - 2021)) with 0 by lia. cbn [seq map combine].
    rewrite app_nil_r.
    destruct (Z.leb_spec (e - 2021) (Z.of_nat (List.length predicted)));
      [reflexivity | lia].
  - intros e predicted surplus file Hle. rewrite !predict_data_spec.
    unfold forecast_rows.
    rewrite combine_app_surplus by (rewrite range_length; lia).
    rewrite length_app.
    destruct (Z.leb_spec (e - 2021) (Z.of_nat (List.length predicted)));
      destruct (Z.leb_spec (e - 2021)
                  (Z.of_nat (List.length predicted + List.length surplus)));
      try reflexivity; lia.
Qed.

(** X7: [means_to_csv] writes the header, then one row per year of the
    mapping in the order of its keys, then the forecast rows; it ends with
    [IndexError] exactly when the predicted values are fewer than
    [end_year_exclusive - 2021], and then the header and every row of the
    mapping are in the file all the same. The file has
    [1 + len(data) + min(max(0, end_year_exclusive - 2021), len(predicted))]
    rows. *)
Theorem means_to_csv_rows :
  forall (data : AnnualMeans) (end_year_exclusive : Z) (predicted : list V),
    means_to_csv data (end_year_exclusive, predicted)
    = (csv_header
         :: map (fun entry => [Text (fst entry); Num (snd entry)]) data
         ++ forecast_rows end_year_exclusive predicted,
       if (end_year_exclusive - 2021 <=? Z.of_nat (List.length predicted))%Z
       then Ok tt else Err IndexError)
    /\ Z.of_nat
         (List.length (fst (means_to_csv data (end_year_exclusive, predicted))))
       = (1 + Z.of_nat (List.length data)
          + Z.min (Z.max 0 (end_year_exclusive - 2021))
                  (Z.of_nat (List.length predicted)))%Z.
Proof.
  intros data e predicted. unfold means_to_csv.
  rewrite predict_data_spec. split; [reflexivity|].
  cbn [fst app List.length].
  rewrite length_app, length_map, forecast_rows_length. lia.
Qed.

(** With an end year before 2021 no forecast row is written: the file is
    the header and the rows of the mapping. *)
Example means_to_csv_end_before_2021 :
  means_to_csv [("1993", 15%float)] (2019%Z, [7.5; 8]%float)
  = ([[Text "year"; Text "mean_sea_level"]; [Text "1993"; Num 15%float]],
     Ok tt).
Proof. reflexivity. Qed.

End WriterMore.

Lemma predict_data_reads_only_the_years_needed_witness :
  predict_data (2019%Z, [7.5; 8]%float) [[Text "year"; Text "mean_sea_level"]]
  = ([[Text "year"; Text "mean_sea_level"]], Ok tt)
  /\ predict_data (2023%Z, [7.5; 8]%float ++ [9; 10]%float) []
     = predict_data (2023%Z, [7.5; 8]%float) [].
Proof.
  split.
  - apply (proj1 predict_data_reads_only_the_years_needed). lia.
  - apply (proj2 predict_data_reads_only_the_years_needed). simpl. lia.
Defined.

(** ** The date conversion: its domain and its results *)

Section DateMore.

Local Open Scope Z_scope.

Lemma check_date_fields_valid y m d dd :
  check_date_fields y m d = Ok dd ->
  dd = mkdate y m d
  /\ MINYEAR <= y <= MAXYEAR /\ 1 <= m <= 12 /\ 1 <= d <= days_in_month y m.
Proof.
  unfold check_date_fields.
  destruct ((y <? - 2 ^ 31) || (2 ^ 31 <=? y)); [discriminate|].
  destruct (Z.ltb_spec y MINYEAR); [discriminate|].
  destruct (Z.ltb_spec MAXYEAR y); [discriminate|]. cbn [orb].
  destruct (Z.ltb_spec m 1); [discriminate|].
  destruct (Z.ltb_spec 12 m); [discriminate|]. cbn [orb].
  destruct (Z.ltb_spec d 1); [discriminate|].
  destruct (Z.ltb_spec (days_in_month y m) d); [discriminate|]. cbn [orb].
  intros [= <-]. repeat split; lia.
Qed.

Lemma check_date_fields_year_error y m d :
  y < MINYEAR \/ MAXYEAR < y ->
  check_date_fields y m d
  = Err (if (y <? - 2 ^ 31) || (2 ^ 31 <=? y) then OverflowError
         else ValueError).
Proof.
  intros Hy. unfold check_date_fields.
  destruct ((y <? - 2 ^ 31) || (2 ^ 31 <=? y)); [reflexivity|].
  destruct (Z.ltb_spec y MINYEAR); [reflexivity|].
  destruct (Z.ltb_spec MAXYEAR y); [reflexivity | lia].
Qed.

Lemma decimal_year_to_datetime_date_valid x d :
  decimal_year_to_datetime x = Ok d ->
  1 <= year d <= 9999 /\ 1 <= month d <= 12 /\ day d = 1.
Proof.
  unfold decimal_year_to_datetime. intros H.
  destruct (int_of_float x) as [y|]; [|discriminate]. cbn [bind] in H.
  destruct (datetime_new y 1 1) as [base|]; [|discriminate]. cbn [bind] in H.
  destruct (datetime_replace_year base _) as [next|]; [|discriminate].
  cbn [bind] in H.
  destruct (timedelta_of_seconds _) as [offset|]; [|discriminate].
  cbn [bind] in H.
  destruct (datetime_add base offset) as [result|]; [|discriminate].
  cbn [bind] in H. unfold date_replace_day in H.
  apply check_date_fields_valid in H as [-> [Hyr [Hm _]]].
  unfold MINYEAR, MAXYEAR in Hyr. cbn [year month day]. repeat split; lia.
Qed.

(** X8: every date [decimal_year_to_datetime] returns is a valid first day
    of a month (year 1 to 9999, month 1 to 12, day 1), and it returns only
    for inputs whose whole part is a year from 1 to 9998. *)
Theorem decimal_year_to_datetime_returns_valid_date :
  forall x d,
    decimal_year_to_datetime x = Ok d ->
    (exists y, int_of_float x = Ok y /\ 1 <= y <= 9998)
    /\ 1 <= year d <= 9999 /\ 1 <= month d <= 12 /\ day d = 1.
Proof.
  intros x d H. split; [|now apply (decimal_year_to_datetime_date_valid x)].
  unfold decimal_year_to_datetime in H.
  destruct (int_of_float x) as [y|] eqn:Hy; [|discriminate]. cbn [bind] in H.
  unfold datetime_new in H.
  destruct (check_date_fields y 1 1) as [dd|] eqn:Hbase; [|discriminate].
  apply check_date_fields_valid in Hbase as [-> [Hy1 _]].
  cbn [bind date_of time_of year month day] in H.
  unfold datetime_replace_year in H. cbn [date_of time_of year month day] in H.
  destruct (check_date_fields (y + 1) 1 1) as [dd|] eqn:Hnext; [|discriminate].
  apply check_date_fields_valid in Hnext as [_ [Hy2 _]].
  unfold MINYEAR, MAXYEAR in *. exists y. split; [reflexivity | lia].
Qed.

(** X9: [decimal_year_to_datetime] fails on every input whose whole part is
    not a year from 1 to 9998: with the error of [int] when the input is not
    finite, with [OverflowError] when the whole part does not fit a C [int]
    and with [ValueError] otherwise, the year 9999 included, whose next
    January 1 is out of range. *)
Theorem decimal_year_to_datetime_out_of_range :
  forall x,
    (forall e, int_of_float x = Err e -> decimal_year_to_datetime x = Err e)
    /\ (forall y,
        int_of_float x = Ok y ->
        y < 1 \/ 9998 < y ->
        decimal_year_to_datetime x
        = Err (if (y <? - 2 ^ 31) || (2 ^ 31 <=? y) then OverflowError
               else ValueError)).
Proof.
  intros x. split.
  - intros e He. unfold decimal_year_to_datetime. now rewrite He.
  - intros y Hy Hrange. unfold decimal_year_to_datetime. rewrite Hy.
    cbn [bind]. unfold datetime_new.
    destruct (Z.eq_dec y 9999) as [->|Hne].
    + reflexivity.
    + rewrite check_date_fields_year_error by (unfold MINYEAR, MAXYEAR; lia).
      reflexivity.
Qed.

End DateMore.

Lemma decimal_year_to_datetime_returns_valid_date_witness :
  (exists y, int_of_float 1993.25%float = Ok y /\ (1 <= y <= 9998)%Z)
  /\ (1 <= year (mkdate 1993 4 1) <= 9999)%Z
  /\ (1 <= month (mkdate 1993 4 1) <= 12)%Z
  /\ day (mkdate 1993 4 1) = 1%Z.
Proof.
  apply (decimal_year_to_datetime_returns_valid_date 1993.25%float).
  vm_compute. reflexivity.
Defined.

Lemma decimal_year_to_datetime_out_of_range_witness :
  decimal_year_to_datetime 9999.5%float = Err ValueError
  /\ decimal_year_to_datetime (-0.25)%float = Err ValueError
  /\ decimal_year_to_datetime 4294967296.5%float = Err OverflowError
  /\ decimal_year_to_datetime nan = Err ValueError.
Proof.
  split; [|split; [|split]].
  - apply (proj2 (decimal_year_to_datetime_out_of_range 9999.5%float) 9999%Z);
      [reflexivity | lia].
  - apply (proj2 (decimal_year_to_datetime_out_of_range (-0.25)%float) 0%Z);
      [reflexivity | lia].
  - apply (proj2 (decimal_year_to_datetime_out_of_range 4294967296.5%float)
             4294967296%Z); [reflexivity | lia].
  - apply (proj1 (decimal_year_to_datetime_out_of_range nan)). reflexivity.
Defined.

(** ** The writer of the dated observations *)

Section DatetimeCsvFacts.

Variable py_float : string -> option float.

Lemma write_pairs_app pairs1 : forall pairs2 file,
  write_pairs py_float (pairs1 ++ pairs2) file
  = match write_pairs py_float pairs1 file with
    | (file', Ok _) => write_pairs py_float pairs2 file'
    | (file', Err e) => (file', Err e)
    end.
Proof.
  induction pairs1 as [|p pairs1 IH]; intros pairs2 file; cbn [app write_pairs].
  - reflexivity.
  - destruct (label_date py_float p); [apply IH | reflexivity].
Qed.

Lemma write_satellites_flat data keys : forall file,
  incl keys (dict_keys data) ->
  write_satellites py_float data keys file
  = write_pairs py_float (flat_map (obs_of data) keys) file.
Proof.
  induction keys as [|k keys IH]; intros file Hincl;
    cbn [write_satellites flat_map].
  - reflexivity.
  - assert (Hk : In k (dict_keys data)) by (apply Hincl; now left).
    apply dict_get_keys in Hk. rewrite write_pairs_app.
    unfold getitem, obs_of.
    destruct (dict_get data k) as [pairs|]; [|congruence].
    destruct (write_pairs py_float pairs file) as [file' [[]|e]];
      [|reflexivity].
    apply IH. intros k' Hk'. apply Hincl. now right.
Qed.

Lemma write_pairs_all_ok pairs : forall dates file,
  Forall2 (fun p d => label_date py_float p = Ok d) pairs dates ->
  write_pairs py_float pairs file = (file ++ dated_rows pairs dates, Ok tt).
Proof.
  induction pairs as [|p pairs IH]; intros dates file Hall;
    inversion Hall as [|? d ? dates' Hp Hrest]; subst; cbn [write_pairs].
  - unfold dated_rows. cbn [combine map]. now rewrite app_nil_r.
  - rewrite Hp, (IH dates') by assumption.
    unfold dated_rows. cbn [combine map fst snd]. unfold dated_row at 2.
    now rewrite <- app_assoc.
Qed.

Lemma write_pairs_first_error pre : forall dates file p post e,
  Forall2 (fun p d => label_date py_float p = Ok d) pre dates ->
  label_date py_float p = Err e ->
  write_pairs py_float (pre ++ p :: post) file
  = (file ++ dated_rows pre dates, Err e).
Proof.
  intros dates file p post e Hall Hp.
  rewrite write_pairs_app, (write_pairs_all_ok pre dates _ Hall).
  cbn [write_pairs]. now rewrite Hp.
Qed.

(** X10: when the label of every observation parses as a float and converts
    to a date, [data_to_datetime_csv] returns after writing the header and
    one row per observation, source after source in the order of the keys
    and in the order of each source's list; every date written is a valid
    first day of a month. *)
Theorem data_to_datetime_csv_writes_every_observation :
  forall (data : SourceDataset) (dates : list date),
    Forall2 (fun p d => label_date py_float p = Ok d) (all_pairs data) dates ->
    data_to_datetime_csv py_float data
    = (csv_header :: dated_rows (all_pairs data) dates, Ok tt)
    /\ List.length (dated_rows (all_pairs data) dates)
       = List.length (all_pairs data)
    /\ Forall (fun d => (1 <= year d <= 9999)%Z /\ (1 <= month d <= 12)%Z
                        /\ day d = 1%Z) dates.
Proof.
  intros data dates Hall. split; [|split].
  - unfold data_to_datetime_csv.
    rewrite write_satellites_flat by apply incl_refl.
    fold (all_pairs data). now rewrite (write_pairs_all_ok _ dates).
  - unfold dated_rows. rewrite length_map, length_combine.
    apply Forall2_length in Hall. lia.
  - induction Hall as [|p d pairs dates' Hp _ IH]; constructor; auto.
    unfold label_date in Hp.
    destruct (float_of_string py_float (fst p)) as [x|]; [|discriminate].
    cbn [bind] in Hp. now apply (decimal_year_to_datetime_date_valid x).
Qed.

(** X11: [data_to_datetime_csv] stops at the first observation, in that
    order, whose label does not parse or does not convert: it ends with that
    error, and the file holds the header and the rows of the observations
    before it, nothing of the failing one or of those after it. *)
Theorem data_to_datetime_csv_stops_at_first_error :
  forall (data : SourceDataset) pre p post (dates : list date) e,
    all_pairs data = pre ++ p :: post ->
    Forall2 (fun p d => label_date py_float p = Ok d) pre dates ->
    label_date py_float p = Err e ->
    data_to_datetime_csv py_float data
    = (csv_header :: dated_rows pre dates, Err e).
Proof.
  intros data pre p post dates e Hsplit Hall Hp.
  unfold data_to_datetime_csv.
  rewrite write_satellites_flat by apply incl_refl.
  fold (all_pairs data). rewrite Hsplit.
  exact (write_pairs_first_error pre dates [csv_header] p post e Hall Hp).
Qed.

End DatetimeCsvFacts.

Lemma data_to_datetime_csv_writes_every_observation_witness :
  data_to_datetime_csv example_label_float
    [("topex_pos", [("1993.25", 10%float)]);
     ("jason-1", [("2004.5", 20%float); ("1993.25", 30%float)])]
  = ([[Text "year"; Text "mean_sea_level"];
      [Val (mkdate 1993 4 1); Num 10%float];
      [Val (mkdate 2004 7 1); Num 20%float];
      [Val (mkdate 1993 4 1); Num 30%float]], Ok tt).
Proof.
  apply (proj1 (data_to_datetime_csv_writes_every_observation
                  example_label_float
                  [("topex_pos", [("1993.25", 10%float)]);
                   ("jason-1", [("2004.5", 20%float); ("1993.25", 30%float)])]
                  [mkdate 1993 4 1; mkdate 2004 7 1; mkdate 1993 4 1]
                  ltac:(repeat constructor))).
Defined.

Lemma data_to_datetime_csv_stops_at_first_error_witness :
  data_to_datetime_csv example_label_float
    [("topex_pos", [("1993.25", 10%float)]);
     ("jason-1", [("9999.5", 20%float); ("1993.25", 30%float)])]
  = ([[Text "year"; Text "mean_sea_level"];
      [Val (mkdate 1993 4 1); Num 10%float]], Err ValueError).
Proof.
  apply (data_to_datetime_csv_stops_at_first_error example_label_float
           [("topex_pos", [("1993.25", 10%float)]);
            ("jason-1", [("9999.5", 20%float); ("1993.25", 30%float)])]
           [("1993.25", 10%float)] ("9999.5", 20%float) [("1993.25", 30%float)]
           [mkdate 1993 4 1] ValueError).
  - reflexivity.
  - repeat constructor.
  - reflexivity.
Defined.

(** ** Datasets without observations *)

(** X12: [group_means] returns the empty mapping exactly when no source of
    the dataset has an observation, the dataset without sources included;
    no division is attempted then. *)
Theorem group_means_empty_iff :
  forall data : SourceDataset,
    group_means data = Ok []
    <-> forall satellite obs, dict_get data satellite = Some obs -> obs = [].
Proof.
  intros data. rewrite group_means_ok. split.
  - intros [= Hm] satellite obs Hs.
    destruct obs as [|p obs]; [reflexivity | exfalso].
    assert (Hk : In (year_of p) (dict_keys (merge_sources data (dict_keys data) []))).
    { apply merge_sources_keys. left. exists satellite. split.
      - apply dict_get_keys. congruence.
      - unfold obs_of. rewrite Hs. apply years_of_In. exists p.
        split; [now left | reflexivity]. }
    rewrite Hm in Hk. contradiction.
  - intros Hempty. f_equal.
    destruct (merge_sources data (dict_keys data) []) as [|[k v] means] eqn:Hm;
      [reflexivity | exfalso].
    assert (Hk : In k (dict_keys (merge_sources data (dict_keys data) []))).
    { rewrite Hm. now left. }
    apply merge_sources_keys in Hk. destruct Hk as [[satellite [Hs Hy]]|[]].
    unfold obs_of in Hy.
    destruct (dict_get data satellite) as [obs|] eqn:E; [|contradiction].
    rewrite (Hempty satellite obs E) in Hy. contradiction.
Qed.
